(** * AV1Decoder: the colour and alpha tile decoders of pdn-avif

    A shallow embedding of [src/AvifNative/AV1Decoder.cpp].  The three
    functions of that file ([DecodeAV1Image], [DecodeColorImage] and
    [DecodeAlphaImage]) are written in a small state-and-trap monad over a
    [World] that holds the private state of libaom, the caller's bitmaps
    and the trace of the calls made to the collaborators.  libaom and the
    two conversion routines of [DecodedImageConverter.h] are external: their
    behaviour is a parameter ([Externals]) of everything below. *)

From Stdlib Require Import NArith Strings.Byte.
From stdpp Require Import base option list gmap.

Local Open Scope N_scope.

(** ** Data *)

(** The error codes of libaom ([aom_codec_err_t], <aom/aom_codec.h>).  The
    source only ever compares against [AOM_CODEC_OK] and
    [AOM_CODEC_MEM_ERROR]. *)
Inductive aom_codec_err_t : Set :=
  | AOM_CODEC_OK
  | AOM_CODEC_ERROR
  | AOM_CODEC_MEM_ERROR
  | AOM_CODEC_ABI_MISMATCH
  | AOM_CODEC_INCAPABLE
  | AOM_CODEC_UNSUP_BITSTREAM
  | AOM_CODEC_UNSUP_FEATURE
  | AOM_CODEC_CORRUPT_FRAME
  | AOM_CODEC_INVALID_PARAM.

#[global] Instance aom_codec_err_eq_dec : EqDecision aom_codec_err_t.
Proof. solve_decision. Defined.

(** Modelled from the spec: the enumeration [DecoderStatus] is declared in
    [AvifNative.h], which is not among the sources; the spec (section 3)
    gives it as the closed set below. *)
Inductive DecoderStatus : Set :=
  | Ok
  | NullParameter
  | OutOfMemory
  | DecodeFailed
  | ColorSizeMismatch
  | AlphaSizeMismatch.

#[global] Instance DecoderStatus_eq_dec : EqDecision DecoderStatus.
Proof. solve_decision. Defined.

(** The decoder interface returned by [aom_codec_av1_dx()]. *)
Inductive aom_codec_iface_t : Set := av1_dx_iface.

(** A decoded frame ([aom_image_t], <aom/aom_image.h>): the displayed
    width and height, which the source reads, and the sample data, which
    only the conversion routines read. *)
Record aom_image_t : Set := mk_aom_image {
  fmt : N;
  bit_depth : N;
  d_w : N;
  d_h : N;
  planes : list byte
}.

(** Modelled from the spec: [DecodeInfo] is declared in [AvifNative.h],
    which is not among the sources; the source reads its fields
    [expectedWidth] and [expectedHeight], the spec's DecodeExpectation
    (both unsigned, 0 meaning unconstrained). *)
Record DecodeInfo : Set := mk_DecodeInfo {
  expectedWidth : N;
  expectedHeight : N
}.

(** Modelled from the spec: [ColorConversionInfo] is declared in
    [AvifNative.h], which is not among the sources; the spec describes it
    as colour metadata (primaries, transfer, matrix, range flag) that the
    core only forwards. *)
Record ColorConversionInfo : Set := mk_ColorConversionInfo {
  colorPrimaries : N;
  transferCharacteristics : N;
  matrixCoefficients : N;
  fullRange : bool
}.

(** Modelled from the spec: [BitmapData] is declared in [AvifNative.h],
    which is not among the sources; the spec describes it as a
    caller-owned pixel buffer with its stride and size. *)
Record BitmapData : Set := mk_BitmapData {
  width : N;
  height : N;
  stride : N;
  scan0 : list byte
}.

(** ** Pointers

    A pointer to data that the core and its collaborators only read is an
    [option]: [None] is [nullptr].  The output bitmap is written in place
    by the conversion routines, so a [BitmapData*] is an optional address
    into the store of the caller's bitmaps. *)
Definition addr : Set := N.

Definition is_null {A : Type} (p : option A) : bool :=
  match p with None => true | Some _ => false end.

(** ** The world *)

(** The calls that cross the boundary to a collaborator, in the order in
    which they are made. *)
Inductive Call : Set :=
  | call_dec_init
  | call_decode
  | call_get_frame
  | call_destroy
  | call_ConvertColorImage
  | call_ConvertAlphaImage.

#[global] Instance Call_eq_dec : EqDecision Call.
Proof. solve_decision. Defined.

(** What a run can trap on: the source dereferences pointers that it has
    not compared with [nullptr]. *)
Inductive Fault : Set := NullDereference.

Section Core.

(** The private state of libaom, the codec context included. *)
Context {AomState : Type}.

Record World : Type := mk_World {
  aom : AomState;
  bitmaps : gmap addr BitmapData;
  calls : list Call
}.

(** The collaborators.  libaom acts on its own state and reads the
    compressed buffer; the conversion routines read the frame and the
    metadata and write the caller's bitmaps. *)
Record Externals : Type := mk_Externals {
  ext_dec_init : aom_codec_iface_t → AomState → aom_codec_err_t * AomState;
  ext_decode : option (list byte) → N → AomState → aom_codec_err_t * AomState;
  ext_get_frame : AomState → option aom_image_t * AomState;
  ext_destroy : AomState → aom_codec_err_t * AomState;
  ext_ConvertColorImage :
    option aom_image_t → option ColorConversionInfo → option DecodeInfo →
    option addr → gmap addr BitmapData → DecoderStatus * gmap addr BitmapData;
  ext_ConvertAlphaImage :
    option aom_image_t → option DecodeInfo →
    option addr → gmap addr BitmapData → DecoderStatus * gmap addr BitmapData
}.

(** ** The monad *)

Inductive Res (A : Type) : Type :=
  | Val (a : A) (w : World)
  | Trap (f : Fault) (w : World).
Arguments Val {A} a w.
Arguments Trap {A} f w.

Definition M (A : Type) : Type := World → Res A.

#[local] Instance M_ret : MRet M := λ A a w, Val a w.

#[local] Instance M_bind : MBind M := λ A B k m w,
  match m w with
  | Val a w' => k a w'
  | Trap f w' => Trap f w'
  end.

Definition trap {A : Type} (f : Fault) : M A := λ w, Trap f w.

Definition world_of {A : Type} (r : Res A) : World :=
  match r with Val _ w => w | Trap _ w => w end.

Definition value_of {A : Type} (r : Res A) : option A :=
  match r with Val a _ => Some a | Trap _ _ => None end.

(** [*p] *)
Definition load {A : Type} (p : option A) : M A :=
  match p with
  | Some a => mret a
  | None => trap NullDereference
  end.

(** [p->field] *)
Definition arrow {A : Type} (p : option A) (field : A → N) : M N :=
  a ← load p; mret (field a).

Definition lit (n : N) : M N := mret n.

(** [x != y] on unsigned operands *)
Definition ne (x y : M N) : M bool :=
  a ← x; b ← y; mret (negb (a =? b)).

(** The short-circuit [&&] and [||] of C++. *)
Definition and_then (x y : M bool) : M bool :=
  a ← x; if a : bool then y else mret false.

Definition or_else (x y : M bool) : M bool :=
  a ← x; if a : bool then mret true else y.

(** Run a libaom entry point on libaom's state, recording the call. *)
Definition on_aom {A : Type} (c : Call) (f : AomState → A * AomState) : M A :=
  λ w, let '(a, s) := f (aom w) in
       Val a (mk_World s (bitmaps w) (calls w ++ [c])).

(** Run a conversion routine on the caller's bitmaps, recording the call. *)
Definition on_bitmaps {A : Type} (c : Call)
    (f : gmap addr BitmapData → A * gmap addr BitmapData) : M A :=
  λ w, let '(a, b) := f (bitmaps w) in
       Val a (mk_World (aom w) b (calls w ++ [c])).

Variable ext : Externals.

Definition aom_codec_av1_dx : aom_codec_iface_t := av1_dx_iface.

Definition aom_codec_dec_init (iface : aom_codec_iface_t) : M aom_codec_err_t :=
  on_aom call_dec_init (ext_dec_init ext iface).

Definition aom_codec_decode (data : option (list byte)) (data_sz : N) : M aom_codec_err_t :=
  on_aom call_decode (ext_decode ext data data_sz).

Definition aom_codec_get_frame : M (option aom_image_t) :=
  on_aom call_get_frame (ext_get_frame ext).

Definition aom_codec_destroy : M aom_codec_err_t :=
  on_aom call_destroy (ext_destroy ext).

Definition ConvertColorImage (frame : option aom_image_t)
    (colorInfo : option ColorConversionInfo) (decodeInfo : option DecodeInfo)
    (decodedImage : option addr) : M DecoderStatus :=
  on_bitmaps call_ConvertColorImage
    (ext_ConvertColorImage ext frame colorInfo decodeInfo decodedImage).

Definition ConvertAlphaImage (frame : option aom_image_t)
    (decodeInfo : option DecodeInfo) (outputImage : option addr) : M DecoderStatus :=
  on_bitmaps call_ConvertAlphaImage
    (ext_ConvertAlphaImage ext frame decodeInfo outputImage).

(** ** The source functions *)

Notation "p '->>' f" := (arrow p f) (at level 30, no associativity).
Notation "x '!=' y" := (ne x y) (at level 40, no associativity).
Notation "x '<&&>' y" := (and_then x y) (at level 45, right associativity).
Notation "x '<||>' y" := (or_else x y) (at level 48, right associativity).

(** [DecodeAV1Image] (lines 24-56).  The codec context lives in the
    libaom state of the world; the out-parameter [*decodedImage] is the
    second component of the result. *)
Definition DecodeAV1Image (compressedImage : option (list byte))
    (compressedImageSize : N) : M (DecoderStatus * option aom_image_t) :=
  error ← aom_codec_decode compressedImage compressedImageSize;
  if bool_decide (error ≠ AOM_CODEC_OK) then
    if bool_decide (error = AOM_CODEC_MEM_ERROR)
    then mret (OutOfMemory, None)
    else mret (DecodeFailed, None)
  else
    decodedImage ← aom_codec_get_frame;
    if is_null decodedImage
    then mret (DecodeFailed, decodedImage)
    else mret (Ok, decodedImage).

(** The condition of lines 99-100 and of lines 154-155, the same text in
    both entry points: [&&] binds tighter than [||], and both
    short-circuit from left to right. *)
Definition size_mismatch (decodeInfo : option DecodeInfo)
    (aomImage : option aom_image_t) : M bool :=
  decodeInfo ->> expectedWidth != lit 0 <&&>
    aomImage ->> d_w != decodeInfo ->> expectedWidth <||>
  decodeInfo ->> expectedHeight != lit 0 <&&>
    aomImage ->> d_h != decodeInfo ->> expectedHeight.

(** [DecodeColorImage] (lines 59-113). *)
Definition DecodeColorImage (compressedColorImage : option (list byte))
    (compressedColorImageSize : N) (colorInfo : option ColorConversionInfo)
    (decodeInfo : option DecodeInfo) (decodedImage : option addr)
    : M DecoderStatus :=
  if is_null compressedColorImage || (compressedColorImageSize =? 0)
     || is_null decodedImage
  then mret NullParameter
  else
    let iface := aom_codec_av1_dx in
    error ← aom_codec_dec_init iface;
    if bool_decide (error ≠ AOM_CODEC_OK) then
      if bool_decide (error = AOM_CODEC_MEM_ERROR)
      then mret OutOfMemory
      else mret DecodeFailed
    else
      '(status, aomImage) ← DecodeAV1Image compressedColorImage
                              compressedColorImageSize;
      status ← (if bool_decide (status = Ok) then
                  mismatch ← size_mismatch decodeInfo aomImage;
                  if mismatch : bool
                  then mret ColorSizeMismatch
                  else ConvertColorImage aomImage colorInfo decodeInfo
                         decodedImage
                else mret status);
      _ ← aom_codec_destroy;
      mret status.

(** [DecodeAlphaImage] (lines 115-168). *)
Definition DecodeAlphaImage (compressedAlphaImage : option (list byte))
    (compressedAlphaImageSize : N) (decodeInfo : option DecodeInfo)
    (outputImage : option addr) : M DecoderStatus :=
  if is_null compressedAlphaImage || (compressedAlphaImageSize =? 0)
     || is_null outputImage
  then mret NullParameter
  else
    let iface := aom_codec_av1_dx in
    error ← aom_codec_dec_init iface;
    if bool_decide (error ≠ AOM_CODEC_OK) then
      if bool_decide (error = AOM_CODEC_MEM_ERROR)
      then mret OutOfMemory
      else mret DecodeFailed
    else
      '(status, aomImage) ← DecodeAV1Image compressedAlphaImage
                              compressedAlphaImageSize;
      status ← (if bool_decide (status = Ok) then
                  mismatch ← size_mismatch decodeInfo aomImage;
                  if mismatch : bool
                  then mret AlphaSizeMismatch
                  else ConvertAlphaImage aomImage decodeInfo outputImage
                else mret status);
      _ ← aom_codec_destroy;
      mret status.

End Core.

Arguments World : clear implicits.
Arguments Externals : clear implicits.
Arguments Res : clear implicits.
Arguments M : clear implicits.
Arguments Val {AomState A} a w.
Arguments Trap {AomState A} f w.

#[global] Existing Instance M_ret.
#[global] Existing Instance M_bind.

(** ** A scripted instance of the collaborators

    A libaom whose answers are read from its state, and conversion
    routines that copy the frame's samples into the bitmap they are given.
    It makes the model run on concrete inputs. *)
Module Scripted.

Record Script : Set := mk_Script {
  on_init : aom_codec_err_t;
  on_decode : aom_codec_err_t;
  queued : option aom_image_t;
  live_decoders : N
}.

Definition dec_init (_ : aom_codec_iface_t) (s : Script)
    : aom_codec_err_t * Script :=
  (on_init s,
   if bool_decide (on_init s = AOM_CODEC_OK)
   then mk_Script (on_init s) (on_decode s) (queued s) (live_decoders s + 1)
   else s).

Definition decode (data : option (list byte)) (data_sz : N) (s : Script)
    : aom_codec_err_t * Script :=
  (on_decode s, s).

Definition get_frame (s : Script) : option aom_image_t * Script :=
  (queued s, mk_Script (on_init s) (on_decode s) None (live_decoders s)).

Definition destroy (s : Script) : aom_codec_err_t * Script :=
  (AOM_CODEC_OK,
   mk_Script (on_init s) (on_decode s) None (live_decoders s - 1)).

(** Copies the samples when the frame is 8-bit, refuses it otherwise. *)
Definition convert (frame : option aom_image_t) (outputImage : option addr)
    (b : gmap addr BitmapData) : DecoderStatus * gmap addr BitmapData :=
  match frame, outputImage with
  | Some img, Some a =>
      match b !! a with
      | Some bmp =>
          if bit_depth img =? 8
          then (Ok, <[a := mk_BitmapData (width bmp) (height bmp)
                             (stride bmp) (planes img)]> b)
          else (DecodeFailed, b)
      | None => (NullParameter, b)
      end
  | _, _ => (NullParameter, b)
  end.

Definition externals : Externals Script :=
  mk_Externals dec_init decode get_frame destroy
    (λ frame _ _ out b, convert frame out b)
    (λ frame _ out b, convert frame out b).

(** An alpha conversion that answers as [convert] does but writes only
    the first four samples of the frame. *)
Definition convert_alpha (frame : option aom_image_t)
    (outputImage : option addr) (b : gmap addr BitmapData)
    : DecoderStatus * gmap addr BitmapData :=
  match frame, outputImage with
  | Some img, Some a =>
      match b !! a with
      | Some bmp =>
          if bit_depth img =? 8
          then (Ok, <[a := mk_BitmapData (width bmp) (height bmp)
                             (stride bmp) (take 4 (planes img))]> b)
          else (DecodeFailed, b)
      | None => (NullParameter, b)
      end
  | _, _ => (NullParameter, b)
  end.

(** The same libaom with two conversion routines that agree on their
    status and differ in what they write. *)
Definition externals_two : Externals Script :=
  mk_Externals dec_init decode get_frame destroy
    (λ frame _ _ out b, convert frame out b)
    (λ frame _ out b, convert_alpha frame out b).

Definition frame_4x2 : aom_image_t :=
  mk_aom_image 0 8 4 2 [x01; x02; x03; x04; x05; x06; x07; x08].

Definition blank : BitmapData := mk_BitmapData 4 2 4 [].

Definition world (s : Script) : World Script :=
  mk_World s {[ 16 := blank ]} [].

(** A healthy decoder with one 4x2 frame to deliver. *)
Definition healthy : Script :=
  mk_Script AOM_CODEC_OK AOM_CODEC_OK (Some frame_4x2) 0.

Definition tile : option (list byte) := Some [x12; x00; x0a].

End Scripted.

(** ** The vocabulary of the properties *)

Section Vocabulary.

Context {AomState : Type} (ext : Externals AomState).

Implicit Types (w : World AomState) (s : AomState) (e : aom_codec_err_t).

(** The world after libaom moved to state [s] and the calls [l] were
    made; the caller's bitmaps are as they were. *)
Definition after_aom w s (l : list Call) : World AomState :=
  mk_World s (bitmaps w) (calls w ++ l).

#[global] Arguments after_aom : simpl never.

(** The three arguments that the entry points compare with null. *)
Definition checked_args_ok {A B : Type} (buffer : option A) (size : N)
    (output : option B) : Prop :=
  is_null buffer = false ∧ size ≠ 0 ∧ is_null output = false.

(** The rule of the spec (section 4.3), in its words: validation fails
    when the width is constrained and wrong, or the height is
    constrained and wrong. *)
Definition validation_fails (expectation : DecodeInfo)
    (frame : aom_image_t) : Prop :=
  expectedWidth expectation ≠ 0 ∧ d_w frame ≠ expectedWidth expectation ∨
  expectedHeight expectation ≠ 0 ∧ d_h frame ≠ expectedHeight expectation.

#[global] Instance validation_fails_dec expectation frame :
  Decision (validation_fails expectation frame).
Proof. unfold validation_fails. apply _. Defined.

(** The condition of the source as a boolean, grouped the way C++
    groups it. *)
Definition grouped (a b c d : bool) : bool := (a && b) || (c && d).

(** The six steps of the spec (section 2), with the status reported on a
    mismatch and the conversion step left open: (1) input validation,
    (2) decoder initialisation and the mapping of its error, (3) the
    single-frame decode, (4) the dimension check, (5) conversion,
    (6) teardown. *)
Definition DecodeImageWith (mismatchStatus : DecoderStatus)
    (convert : option aom_image_t → M AomState DecoderStatus)
    (compressedImage : option (list byte)) (compressedImageSize : N)
    (decodeInfo : option DecodeInfo) (outputImage : option addr)
    : M AomState DecoderStatus :=
  if is_null compressedImage || (compressedImageSize =? 0)
     || is_null outputImage
  then mret NullParameter
  else
    error ← aom_codec_dec_init ext aom_codec_av1_dx;
    if bool_decide (error ≠ AOM_CODEC_OK) then
      if bool_decide (error = AOM_CODEC_MEM_ERROR)
      then mret OutOfMemory
      else mret DecodeFailed
    else
      '(status, aomImage) ← DecodeAV1Image ext compressedImage
                              compressedImageSize;
      status ← (if bool_decide (status = Ok) then
                  mismatch ← size_mismatch decodeInfo aomImage;
                  if mismatch : bool
                  then mret mismatchStatus
                  else convert aomImage
                else mret status);
      _ ← aom_codec_destroy ext;
      mret status.

End Vocabulary.

(** Every outcome of a call that passed the input validation and
    initialised its decoder, when the conversion step is a collaborator
    writing the caller's bitmaps. *)
Definition outcome_after_init {AomState : Type} (ext : Externals AomState)
    (mismatchStatus : DecoderStatus) (c : Call)
    (f : option aom_image_t → gmap addr BitmapData →
         DecoderStatus * gmap addr BitmapData)
    (decodeInfo : option DecodeInfo) (w : World AomState)
    (e : aom_codec_err_t) (s2 : AomState) (frame : option aom_image_t)
    (s3 : AomState) : Res AomState DecoderStatus :=
  if bool_decide (e = AOM_CODEC_OK) then
    match frame, decodeInfo with
    | None, _ =>
        Val DecodeFailed
          (after_aom w (ext_destroy ext s3).2
             [call_dec_init; call_decode; call_get_frame; call_destroy])
    | Some img, None =>
        Trap NullDereference
          (after_aom w s3 [call_dec_init; call_decode; call_get_frame])
    | Some img, Some di =>
        if bool_decide (validation_fails di img) then
          Val mismatchStatus
            (after_aom w (ext_destroy ext s3).2
               [call_dec_init; call_decode; call_get_frame; call_destroy])
        else
          Val (f (Some img) (bitmaps w)).1
            (mk_World (ext_destroy ext s3).2 (f (Some img) (bitmaps w)).2
               (calls w ++ [call_dec_init; call_decode; call_get_frame; c;
                            call_destroy]))
    end
  else
    Val (if bool_decide (e = AOM_CODEC_MEM_ERROR)
         then OutOfMemory else DecodeFailed)
        (after_aom w (ext_destroy ext s2).2
           [call_dec_init; call_decode; call_destroy]).

(** What "the decode succeeded" means for a call: its arguments passed the
    input validation, the decoder initialised, the decode call returned
    without error and the output queue delivered the frame [img]. *)
Definition decodes_to {AomState : Type} (ext : Externals AomState)
    (buffer : option (list byte)) (size : N) (output : option addr)
    (w : World AomState) (img : aom_image_t) (s3 : AomState) : Prop :=
  checked_args_ok buffer size output ∧
  ∃ s1 s2,
    ext_dec_init ext av1_dx_iface (aom w) = (AOM_CODEC_OK, s1) ∧
    ext_decode ext buffer size s1 = (AOM_CODEC_OK, s2) ∧
    ext_get_frame ext s2 = (Some img, s3).


(** The decode of a call succeeded, with a [DecodeInfo], and delivered a
    frame whose size fails the dimension check. *)
Definition mismatch_decoded {AomState : Type} (ext : Externals AomState)
    (buffer : option (list byte)) (size : N)
    (decodeInfo : option DecodeInfo) (output : option addr)
    (w : World AomState) : Prop :=
  ∃ img s3 di,
    decodes_to ext buffer size output w img s3
    ∧ decodeInfo = Some di
    ∧ validation_fails di img.

(** Two outcomes, of the colour and of the alpha entry point, are the
    same outcome of one pipeline: both trap, in the same world, or both
    return, with the same status unless the colour path returns
    [ColorSizeMismatch], the alpha path [AlphaSizeMismatch], and the
    dimension check of the call failed. *)
Definition same_pipeline {AomState : Type} (mismatch : Prop)
    (color alpha : Res AomState DecoderStatus) : Prop :=
  match color, alpha with
  | Val sc _, Val sa _ =>
      sc = sa
      ∨ sc = ColorSizeMismatch ∧ sa = AlphaSizeMismatch ∧ mismatch
  | Trap fc wc, Trap fa wa => fc = fa ∧ wc = wa
  | _, _ => False
  end.

(** The traces that a returning call can add: nothing when the input
    validation refuses the arguments, the failed initialisation alone, or
    an initialisation, the calls of the steps reached, and the release;
    [c] is the conversion routine of the entry point. *)
Definition returning_traces (c : Call) : list (list Call) :=
  [ [];
    [call_dec_init];
    [call_dec_init; call_decode; call_destroy];
    [call_dec_init; call_decode; call_get_frame; call_destroy];
    [call_dec_init; call_decode; call_get_frame; c; call_destroy] ].

(** The statuses that the core produces by itself, without a conversion
    routine: [mismatchStatus] is the mismatch status of the entry point. *)
Definition core_statuses (mismatchStatus : DecoderStatus)
    : list DecoderStatus :=
  [NullParameter; OutOfMemory; DecodeFailed; mismatchStatus].

Definition is_trap {AomState A : Type} (r : Res AomState A) : Prop :=
  match r with Trap _ _ => True | Val _ _ => False end.

(** ** Running the model *)

Section Runs.

Context {AomState : Type} (ext : Externals AomState).

Implicit Types (w : World AomState) (s : AomState) (e : aom_codec_err_t).

Lemma checked_args_ok_test {A B : Type} (buffer : option A) size
    (output : option B) :
  checked_args_ok buffer size output →
  is_null buffer || (size =? 0) || is_null output = false.
Proof.
  intros (-> & Hs & ->). apply N.eqb_neq in Hs. by rewrite Hs.
Qed.

Lemma checked_args_bad_test {A B : Type} (buffer : option A) size
    (output : option B) :
  buffer = None ∨ size = 0 ∨ output = None →
  is_null buffer || (size =? 0) || is_null output = true.
Proof.
  intros [-> | [-> | ->]]; [done | by destruct buffer |].
  by destruct buffer, (size =? 0).
Qed.

Lemma bind_run {A B : Type} (m : M AomState A) (k : A → M AomState B) w :
  (m ≫= k) w =
  match m w with Val a w' => k a w' | Trap f w' => Trap f w' end.
Proof. reflexivity. Qed.

Lemma dec_init_run w e s :
  ext_dec_init ext av1_dx_iface (aom w) = (e, s) →
  aom_codec_dec_init ext aom_codec_av1_dx w = Val e (after_aom w s [call_dec_init]).
Proof.
  intros H. unfold aom_codec_dec_init, aom_codec_av1_dx, on_aom.
  by rewrite H.
Qed.

Lemma destroy_run w :
  aom_codec_destroy ext w =
  Val (ext_destroy ext (aom w)).1
      (after_aom w (ext_destroy ext (aom w)).2 [call_destroy]).
Proof.
  unfold aom_codec_destroy, on_aom. by destruct (ext_destroy ext (aom w)).
Qed.

(** What one run of [DecodeAV1Image] does, by the answers of libaom. *)
Lemma DecodeAV1Image_run buffer size w e s1 frame s2 :
  ext_decode ext buffer size (aom w) = (e, s1) →
  ext_get_frame ext s1 = (frame, s2) →
  DecodeAV1Image ext buffer size w =
  if bool_decide (e = AOM_CODEC_OK) then
    Val (if is_null frame then DecodeFailed else Ok, frame)
        (after_aom w s2 [call_decode; call_get_frame])
  else
    Val (if bool_decide (e = AOM_CODEC_MEM_ERROR)
         then OutOfMemory else DecodeFailed, None)
        (after_aom w s1 [call_decode]).
Proof.
  intros Hd Hg. unfold DecodeAV1Image. rewrite bind_run.
  unfold aom_codec_decode, on_aom at 1. rewrite Hd.
  destruct e; simpl; try reflexivity.
  rewrite bind_run. unfold aom_codec_get_frame, on_aom. simpl. rewrite Hg.
  unfold after_aom. simpl. rewrite <- (assoc_L (++)).
  by destruct frame.
Qed.

(** *** Dimension validation *)

Lemma size_mismatch_grouped di img w :
  size_mismatch (Some di) (Some img) w =
  Val (grouped (negb (expectedWidth di =? 0))
               (negb (d_w img =? expectedWidth di))
               (negb (expectedHeight di =? 0))
               (negb (d_h img =? expectedHeight di))) w.
Proof.
  unfold size_mismatch, or_else, and_then, ne, arrow, lit, load, grouped.
  unfold mbind, mret, M_bind, M_ret. cbn.
  destruct (expectedWidth di =? 0), (d_w img =? expectedWidth di),
           (expectedHeight di =? 0), (d_h img =? expectedHeight di);
    reflexivity.
Qed.

Lemma grouped_validation_fails di img :
  grouped (negb (expectedWidth di =? 0))
          (negb (d_w img =? expectedWidth di))
          (negb (expectedHeight di =? 0))
          (negb (d_h img =? expectedHeight di)) =
  bool_decide (validation_fails di img).
Proof.
  unfold grouped, validation_fails.
  destruct (N.eqb_spec (expectedWidth di) 0),
           (N.eqb_spec (d_w img) (expectedWidth di)),
           (N.eqb_spec (expectedHeight di) 0),
           (N.eqb_spec (d_h img) (expectedHeight di)); simpl;
    symmetry; (apply bool_decide_eq_true || apply bool_decide_eq_false);
    tauto.
Qed.

Lemma size_mismatch_run di img w :
  size_mismatch (Some di) (Some img) w =
  Val (bool_decide (validation_fails di img)) w.
Proof. by rewrite size_mismatch_grouped, grouped_validation_fails. Qed.

Lemma size_mismatch_null frame w :
  size_mismatch None frame w = Trap NullDereference w.
Proof. reflexivity. Qed.

(** *** The pipeline shared by the two entry points *)

Lemma DecodeColorImage_pipeline buffer size colorInfo decodeInfo output :
  DecodeColorImage ext buffer size colorInfo decodeInfo output =
  DecodeImageWith ext ColorSizeMismatch
    (λ aomImage, ConvertColorImage ext aomImage colorInfo decodeInfo output)
    buffer size decodeInfo output.
Proof. reflexivity. Qed.

Lemma DecodeAlphaImage_pipeline buffer size decodeInfo output :
  DecodeAlphaImage ext buffer size decodeInfo output =
  DecodeImageWith ext AlphaSizeMismatch
    (λ aomImage, ConvertAlphaImage ext aomImage decodeInfo output)
    buffer size decodeInfo output.
Proof. reflexivity. Qed.

End Runs.

(** ** The paths through the pipeline *)

Section Paths.

Context {AomState : Type} (ext : Externals AomState).

Variables (mismatchStatus : DecoderStatus)
          (convert : option aom_image_t → M AomState DecoderStatus)
          (buffer : option (list byte)) (size : N)
          (decodeInfo : option DecodeInfo) (output : option addr).

Implicit Types (w : World AomState) (s : AomState) (e : aom_codec_err_t).

Let run : M AomState DecoderStatus :=
  DecodeImageWith ext mismatchStatus convert buffer size decodeInfo output.

Lemma after_aom_twice w s1 l1 s2 l2 :
  after_aom (after_aom w s1 l1) s2 l2 = after_aom w s2 (l1 ++ l2).
Proof. unfold after_aom. simpl. by rewrite (assoc_L (++)). Qed.

Lemma ret_run {A : Type} (a : A) w :
  (mret a : M AomState A) w = Val a w.
Proof. reflexivity. Qed.

Ltac steps :=
  repeat first
    [ rewrite bind_run | rewrite ret_run | rewrite destroy_run
    | rewrite after_aom_twice | progress simpl ].

Lemma path_null_parameter w :
  buffer = None ∨ size = 0 ∨ output = None →
  run w = Val NullParameter w.
Proof.
  intros H. unfold run, DecodeImageWith.
  by rewrite (checked_args_bad_test _ _ _ H).
Qed.

Lemma path_init_failed w e s1 :
  checked_args_ok buffer size output →
  ext_dec_init ext av1_dx_iface (aom w) = (e, s1) →
  e ≠ AOM_CODEC_OK →
  run w = Val (if bool_decide (e = AOM_CODEC_MEM_ERROR)
               then OutOfMemory else DecodeFailed)
              (after_aom w s1 [call_dec_init]).
Proof.
  intros Ha Hi He. unfold run, DecodeImageWith.
  rewrite (checked_args_ok_test _ _ _ Ha), bind_run, (dec_init_run _ _ _ _ Hi).
  rewrite (bool_decide_eq_true_2 _ He).
  by destruct (bool_decide (e = AOM_CODEC_MEM_ERROR)).
Qed.

(** After a successful initialisation the run is the rest of the
    pipeline, started in the world that libaom left. *)
Lemma path_after_init w s1 e s2 frame s3 :
  checked_args_ok buffer size output →
  ext_dec_init ext av1_dx_iface (aom w) = (AOM_CODEC_OK, s1) →
  ext_decode ext buffer size s1 = (e, s2) →
  ext_get_frame ext s2 = (frame, s3) →
  run w =
  if bool_decide (e = AOM_CODEC_OK) then
    match frame with
    | None =>
        Val DecodeFailed
          (after_aom w (ext_destroy ext s3).2
             [call_dec_init; call_decode; call_get_frame; call_destroy])
    | Some img =>
        match size_mismatch decodeInfo (Some img)
                (after_aom w s3 [call_dec_init; call_decode; call_get_frame])
        with
        | Trap f w' => Trap f w'
        | Val true w' =>
            Val mismatchStatus
              (after_aom w' (ext_destroy ext (aom w')).2 [call_destroy])
        | Val false w' =>
            match convert (Some img) w' with
            | Trap f w'' => Trap f w''
            | Val status w'' =>
                Val status
                  (after_aom w'' (ext_destroy ext (aom w'')).2 [call_destroy])
            end
        end
    end
  else
    Val (if bool_decide (e = AOM_CODEC_MEM_ERROR)
         then OutOfMemory else DecodeFailed)
        (after_aom w (ext_destroy ext s2).2
           [call_dec_init; call_decode; call_destroy]).
Proof.
  intros Ha Hi Hd Hg. unfold run, DecodeImageWith.
  rewrite (checked_args_ok_test _ _ _ Ha), bind_run, (dec_init_run _ _ _ _ Hi).
  simpl. rewrite bind_run.
  rewrite (DecodeAV1Image_run ext buffer size
             (after_aom w s1 [call_dec_init]) e s2 frame s3 Hd Hg).
  rewrite !after_aom_twice. simpl.
  destruct (bool_decide (e = AOM_CODEC_OK)) eqn:He.
  - destruct frame as [img|]; simpl.
    + rewrite !bind_run.
      destruct (size_mismatch decodeInfo (Some img) _) as [[] w'|f w'];
        simpl; [| | done].
      * by steps.
      * destruct (convert (Some img) w') as [st w''|f w'']; [| done].
        by steps.
    + by steps.
  - destruct (bool_decide (e = AOM_CODEC_MEM_ERROR)); by steps.
Qed.

End Paths.

Lemma path_outcome {AomState : Type} (ext : Externals AomState)
    mismatchStatus c f buffer size decodeInfo output
    (w : World AomState) s1 e s2 frame s3 :
  checked_args_ok buffer size output →
  ext_dec_init ext av1_dx_iface (aom w) = (AOM_CODEC_OK, s1) →
  ext_decode ext buffer size s1 = (e, s2) →
  ext_get_frame ext s2 = (frame, s3) →
  DecodeImageWith ext mismatchStatus (λ aomImage, on_bitmaps c (f aomImage))
    buffer size decodeInfo output w
  = outcome_after_init ext mismatchStatus c f decodeInfo w e s2 frame s3.
Proof.
  intros Ha Hi Hd Hg.
  rewrite (path_after_init ext _ _ _ _ _ _ w s1 e s2 frame s3 Ha Hi Hd Hg).
  unfold outcome_after_init.
  destruct (bool_decide (e = AOM_CODEC_OK)); [| done].
  destruct frame as [img|]; [| done].
  destruct decodeInfo as [di|]; [| done].
  rewrite size_mismatch_run.
  destruct (bool_decide (validation_fails di img));
    [by rewrite after_aom_twice |].
  unfold on_bitmaps, after_aom. simpl.
  destruct (f (Some img) (bitmaps w)) as [st b]. simpl.
  by rewrite <- !(assoc_L (++)).
Qed.

Lemma DecodeColorImage_outcome {AomState : Type} (ext : Externals AomState)
    buffer size colorInfo decodeInfo output
    (w : World AomState) s1 e s2 frame s3 :
  checked_args_ok buffer size output →
  ext_dec_init ext av1_dx_iface (aom w) = (AOM_CODEC_OK, s1) →
  ext_decode ext buffer size s1 = (e, s2) →
  ext_get_frame ext s2 = (frame, s3) →
  DecodeColorImage ext buffer size colorInfo decodeInfo output w
  = outcome_after_init ext ColorSizeMismatch call_ConvertColorImage
      (λ img, ext_ConvertColorImage ext img colorInfo decodeInfo output)
      decodeInfo w e s2 frame s3.
Proof.
  intros Ha Hi Hd Hg. rewrite DecodeColorImage_pipeline.
  by apply (path_outcome ext _ _
              (λ img, ext_ConvertColorImage ext img colorInfo decodeInfo output)
              _ _ _ _ w s1).
Qed.

Lemma DecodeAlphaImage_outcome {AomState : Type} (ext : Externals AomState)
    buffer size decodeInfo output
    (w : World AomState) s1 e s2 frame s3 :
  checked_args_ok buffer size output →
  ext_dec_init ext av1_dx_iface (aom w) = (AOM_CODEC_OK, s1) →
  ext_decode ext buffer size s1 = (e, s2) →
  ext_get_frame ext s2 = (frame, s3) →
  DecodeAlphaImage ext buffer size decodeInfo output w
  = outcome_after_init ext AlphaSizeMismatch call_ConvertAlphaImage
      (λ img, ext_ConvertAlphaImage ext img decodeInfo output)
      decodeInfo w e s2 frame s3.
Proof.
  intros Ha Hi Hd Hg. rewrite DecodeAlphaImage_pipeline.
  by apply (path_outcome ext _ _
              (λ img, ext_ConvertAlphaImage ext img decodeInfo output)
              _ _ _ _ w s1).
Qed.

(** ** The properties of the specification *)

(** C2. Dimension validation, on a frame and an expectation: the condition
    of the source evaluates without trapping and without touching the
    world, to the boolean grouped as (a && b) || (c && d); it holds
    exactly when the width is constrained and wrong or the height is
    constrained and wrong; with both expectations 0 it never holds,
    whatever the decoded size; and a constrained, wrong height fails
    validation although the width is unconstrained, which the grouping
    a && (b || c && d) would let pass. *)
Theorem C2_dimension_validation {AomState : Type}
    (expectation : DecodeInfo) (frame : aom_image_t) (w : World AomState) :
  size_mismatch (Some expectation) (Some frame) w =
    Val (grouped (negb (expectedWidth expectation =? 0))
                 (negb (d_w frame =? expectedWidth expectation))
                 (negb (expectedHeight expectation =? 0))
                 (negb (d_h frame =? expectedHeight expectation))) w
  ∧ (size_mismatch (Some expectation) (Some frame) w = Val true w
     ↔ validation_fails expectation frame)
  ∧ (size_mismatch (Some expectation) (Some frame) w = Val false w
     ↔ ¬ validation_fails expectation frame)
  ∧ size_mismatch (Some (mk_DecodeInfo 0 0)) (Some frame) w = Val false w
  ∧ size_mismatch (Some (mk_DecodeInfo 0 (d_h frame + 1))) (Some frame) w
    = Val true w.
Proof.
  split; [apply size_mismatch_grouped |].
  rewrite size_mismatch_run.
  split; [| split; [| split]].
  - split.
    + intros [= H]. by apply bool_decide_eq_true in H.
    + intros H. by rewrite bool_decide_eq_true_2.
  - split.
    + intros [= H]. by apply bool_decide_eq_false in H.
    + intros H. by rewrite bool_decide_eq_false_2.
  - rewrite size_mismatch_run. rewrite bool_decide_eq_false_2; [done |].
    unfold validation_fails. simpl. tauto.
  - rewrite size_mismatch_run. rewrite bool_decide_eq_true_2; [done |].
    unfold validation_fails. simpl. right. lia.
Qed.

(** C3. A call with a null compressed buffer, a zero length or a null
    output bitmap returns [NullParameter] at once, from either entry
    point: the world is returned as it was, so no decoder was initialised
    and no collaborator was called. *)
Theorem C3_null_parameter {AomState : Type} (ext : Externals AomState)
    (buffer : option (list byte)) (size : N)
    (colorInfo : option ColorConversionInfo) (decodeInfo : option DecodeInfo)
    (output : option addr) (w : World AomState) :
  buffer = None ∨ size = 0 ∨ output = None →
  DecodeColorImage ext buffer size colorInfo decodeInfo output w
    = Val NullParameter w
  ∧ DecodeAlphaImage ext buffer size decodeInfo output w
    = Val NullParameter w.
Proof.
  intros H.
  rewrite DecodeColorImage_pipeline, DecodeAlphaImage_pipeline.
  split; by apply path_null_parameter.
Qed.

Lemma C3_null_parameter_witness :
  let w := Scripted.world Scripted.healthy in
  (DecodeColorImage Scripted.externals None 3 None None (Some 16) w
     = Val NullParameter w
   ∧ DecodeAlphaImage Scripted.externals None 3 None (Some 16) w
     = Val NullParameter w)
  ∧ (DecodeColorImage Scripted.externals Scripted.tile 0 None None (Some 16) w
       = Val NullParameter w
     ∧ DecodeAlphaImage Scripted.externals Scripted.tile 0 None (Some 16) w
       = Val NullParameter w)
  ∧ (DecodeColorImage Scripted.externals Scripted.tile 3 None None None w
       = Val NullParameter w
     ∧ DecodeAlphaImage Scripted.externals Scripted.tile 3 None None w
       = Val NullParameter w).
Proof.
  intros w. split; [| split].
  - apply (C3_null_parameter Scripted.externals None 3). left. reflexivity.
  - apply (C3_null_parameter Scripted.externals Scripted.tile 0).
    right. left. reflexivity.
  - apply (C3_null_parameter Scripted.externals Scripted.tile 3 None None None).
    right. right. reflexivity.
Defined.

(** C4. The single-frame decode step always returns a status, never a
    trap.  An allocation error of the decode call gives [OutOfMemory], any
    other error of the decode call gives [DecodeFailed], and in both cases
    the output queue is not read; a decode call that succeeds with an empty
    output queue gives [DecodeFailed]; the status [Ok] is only given with a
    frame. *)
Theorem C4_single_frame_decode {AomState : Type} (ext : Externals AomState)
    (buffer : option (list byte)) (size : N) (w : World AomState)
    (e : aom_codec_err_t) (s1 : AomState)
    (frame : option aom_image_t) (s2 : AomState) :
  ext_decode ext buffer size (aom w) = (e, s1) →
  ext_get_frame ext s1 = (frame, s2) →
  ∃ status image w',
    DecodeAV1Image ext buffer size w = Val (status, image) w'
    ∧ (e = AOM_CODEC_MEM_ERROR →
       status = OutOfMemory ∧ image = None
       ∧ w' = after_aom w s1 [call_decode])
    ∧ (e ≠ AOM_CODEC_OK → e ≠ AOM_CODEC_MEM_ERROR →
       status = DecodeFailed ∧ image = None
       ∧ w' = after_aom w s1 [call_decode])
    ∧ (e = AOM_CODEC_OK → frame = None →
       status = DecodeFailed ∧ image = None
       ∧ w' = after_aom w s2 [call_decode; call_get_frame])
    ∧ (status = Ok ↔ e = AOM_CODEC_OK ∧ ∃ img, frame = Some img)
    ∧ (status = Ok → image = frame).
Proof.
  intros Hd Hg. rewrite (DecodeAV1Image_run ext buffer size w e s1 frame s2 Hd Hg).
  destruct e, frame as [img|]; simpl;
    (eexists _, _, _; split; [reflexivity |]);
    repeat split; try done; try (intros (? & ? & ?); done); eauto.
Qed.

Lemma C4_single_frame_decode_witness :
  (∃ w', DecodeAV1Image Scripted.externals Scripted.tile 3
           (Scripted.world
              (Scripted.mk_Script AOM_CODEC_OK AOM_CODEC_MEM_ERROR None 1))
         = Val (OutOfMemory, None) w')
  ∧ (∃ w', DecodeAV1Image Scripted.externals Scripted.tile 3
             (Scripted.world
                (Scripted.mk_Script AOM_CODEC_OK AOM_CODEC_CORRUPT_FRAME None 1))
           = Val (DecodeFailed, None) w')
  ∧ (∃ w', DecodeAV1Image Scripted.externals Scripted.tile 3
             (Scripted.world
                (Scripted.mk_Script AOM_CODEC_OK AOM_CODEC_OK None 1))
           = Val (DecodeFailed, None) w').
Proof.
  split; [| split].
  - destruct (C4_single_frame_decode Scripted.externals Scripted.tile 3
                (Scripted.world
                   (Scripted.mk_Script AOM_CODEC_OK AOM_CODEC_MEM_ERROR None 1))
                _ _ _ _ eq_refl eq_refl)
      as (status & image & w' & Hrun & Hmem & _).
    destruct (Hmem eq_refl) as (-> & -> & _). eauto.
  - destruct (C4_single_frame_decode Scripted.externals Scripted.tile 3
                (Scripted.world
                   (Scripted.mk_Script AOM_CODEC_OK AOM_CODEC_CORRUPT_FRAME None 1))
                _ _ _ _ eq_refl eq_refl)
      as (status & image & w' & Hrun & _ & Hother & _).
    destruct (Hother ltac:(discriminate) ltac:(discriminate)) as (-> & -> & _).
    eauto.
  - destruct (C4_single_frame_decode Scripted.externals Scripted.tile 3
                (Scripted.world
                   (Scripted.mk_Script AOM_CODEC_OK AOM_CODEC_OK None 1))
                _ _ _ _ eq_refl eq_refl)
      as (status & image & w' & Hrun & _ & _ & Hempty & _).
    destruct (Hempty eq_refl eq_refl) as (-> & -> & _). eauto.
Defined.

(** C5. When the decoder fails to initialise, either entry point returns
    [OutOfMemory] for an allocation error and [DecodeFailed] for any other
    error; the only call made is the initialisation itself, so nothing is
    released and the caller's bitmaps are as they were. *)
Theorem C5_init_failure {AomState : Type} (ext : Externals AomState)
    (buffer : option (list byte)) (size : N)
    (colorInfo : option ColorConversionInfo) (decodeInfo : option DecodeInfo)
    (output : option addr) (w : World AomState)
    (e : aom_codec_err_t) (s1 : AomState) :
  checked_args_ok buffer size output →
  ext_dec_init ext av1_dx_iface (aom w) = (e, s1) →
  e ≠ AOM_CODEC_OK →
  ∃ status,
    (e = AOM_CODEC_MEM_ERROR → status = OutOfMemory)
    ∧ (e ≠ AOM_CODEC_MEM_ERROR → status = DecodeFailed)
    ∧ DecodeColorImage ext buffer size colorInfo decodeInfo output w
      = Val status (mk_World s1 (bitmaps w) (calls w ++ [call_dec_init]))
    ∧ DecodeAlphaImage ext buffer size decodeInfo output w
      = Val status (mk_World s1 (bitmaps w) (calls w ++ [call_dec_init])).
Proof.
  intros Ha Hi He.
  exists (if bool_decide (e = AOM_CODEC_MEM_ERROR)
          then OutOfMemory else DecodeFailed).
  rewrite DecodeColorImage_pipeline, DecodeAlphaImage_pipeline.
  rewrite !(path_init_failed ext _ _ _ _ _ _ w e s1 Ha Hi He).
  repeat split.
  - intros ->. reflexivity.
  - intros Hm. by rewrite (bool_decide_eq_false_2 _ Hm).
Qed.

Lemma C5_init_failure_witness :
  let oom := Scripted.world
               (Scripted.mk_Script AOM_CODEC_MEM_ERROR AOM_CODEC_OK None 0) in
  let bad := Scripted.world
               (Scripted.mk_Script AOM_CODEC_INCAPABLE AOM_CODEC_OK None 0) in
  (DecodeColorImage Scripted.externals Scripted.tile 3 None None (Some 16) oom
     = Val OutOfMemory (mk_World (aom oom) (bitmaps oom) [call_dec_init])
   ∧ DecodeAlphaImage Scripted.externals Scripted.tile 3 None (Some 16) oom
     = Val OutOfMemory (mk_World (aom oom) (bitmaps oom) [call_dec_init]))
  ∧ (DecodeColorImage Scripted.externals Scripted.tile 3 None None (Some 16) bad
       = Val DecodeFailed (mk_World (aom bad) (bitmaps bad) [call_dec_init])
     ∧ DecodeAlphaImage Scripted.externals Scripted.tile 3 None (Some 16) bad
       = Val DecodeFailed (mk_World (aom bad) (bitmaps bad) [call_dec_init])).
Proof.
  intros oom bad. split.
  - destruct (C5_init_failure Scripted.externals Scripted.tile 3 None None
                (Some 16) oom AOM_CODEC_MEM_ERROR (aom oom))
      as (status & Hmem & _ & Hc & Ha);
      [repeat split; discriminate | reflexivity | discriminate |].
    rewrite (Hmem eq_refl) in Hc, Ha. by split.
  - destruct (C5_init_failure Scripted.externals Scripted.tile 3 None None
                (Some 16) bad AOM_CODEC_INCAPABLE (aom bad))
      as (status & _ & Hother & Hc & Ha);
      [repeat split; discriminate | reflexivity | discriminate |].
    rewrite (Hother ltac:(discriminate)) in Hc, Ha. by split.
Defined.

Lemma decodes_to_outcomes {AomState : Type} (ext : Externals AomState)
    buffer size colorInfo decodeInfo output (w : World AomState) img s3 :
  decodes_to ext buffer size output w img s3 →
  DecodeColorImage ext buffer size colorInfo decodeInfo output w
  = outcome_after_init ext ColorSizeMismatch call_ConvertColorImage
      (λ img, ext_ConvertColorImage ext img colorInfo decodeInfo output)
      decodeInfo w AOM_CODEC_OK s3 (Some img) s3
  ∧ DecodeAlphaImage ext buffer size decodeInfo output w
  = outcome_after_init ext AlphaSizeMismatch call_ConvertAlphaImage
      (λ img, ext_ConvertAlphaImage ext img decodeInfo output)
      decodeInfo w AOM_CODEC_OK s3 (Some img) s3.
Proof.
  intros (Ha & s1 & s2 & Hi & Hd & Hg).
  rewrite (DecodeColorImage_outcome ext _ _ _ _ _ w s1 _ s2 _ s3 Ha Hi Hd Hg).
  by rewrite (DecodeAlphaImage_outcome ext _ _ _ _ w s1 _ s2 _ s3 Ha Hi Hd Hg).
Qed.

Lemma scripted_decodes_to script buffer size output :
  checked_args_ok buffer size output →
  Scripted.on_init script = AOM_CODEC_OK →
  Scripted.on_decode script = AOM_CODEC_OK →
  Scripted.queued script = Some Scripted.frame_4x2 →
  decodes_to Scripted.externals buffer size output (Scripted.world script)
    Scripted.frame_4x2
    (Scripted.mk_Script AOM_CODEC_OK AOM_CODEC_OK None
       (Scripted.live_decoders script + 1)).
Proof.
  intros Ha Hi Hd Hq. split; [done |]. destruct script as [i d q n].
  simpl in *. subst. by eexists _, _.
Qed.

(** C6. After a successful decode, an expected width that is not 0 and
    differs from the decoded width makes the colour entry point return
    [ColorSizeMismatch] and the alpha entry point [AlphaSizeMismatch],
    whatever the heights are. *)
Theorem C6_width_mismatch {AomState : Type} (ext : Externals AomState)
    (buffer : option (list byte)) (size : N)
    (colorInfo : option ColorConversionInfo) (expectation : DecodeInfo)
    (output : option addr) (w : World AomState)
    (img : aom_image_t) (s3 : AomState) :
  decodes_to ext buffer size output w img s3 →
  expectedWidth expectation ≠ 0 →
  d_w img ≠ expectedWidth expectation →
  (∃ w', DecodeColorImage ext buffer size colorInfo (Some expectation)
           output w = Val ColorSizeMismatch w')
  ∧ (∃ w', DecodeAlphaImage ext buffer size (Some expectation) output w
           = Val AlphaSizeMismatch w').
Proof.
  intros Hdec Hw Hne.
  destruct (decodes_to_outcomes ext buffer size colorInfo (Some expectation)
              output w img s3 Hdec) as [-> ->].
  unfold outcome_after_init. simpl.
  rewrite bool_decide_eq_true_2; [eauto | by left].
Qed.

Lemma C6_width_mismatch_witness :
  (∃ w', DecodeColorImage Scripted.externals Scripted.tile 3 None
           (Some (mk_DecodeInfo 3 2)) (Some 16)
           (Scripted.world Scripted.healthy) = Val ColorSizeMismatch w')
  ∧ (∃ w', DecodeAlphaImage Scripted.externals Scripted.tile 3
             (Some (mk_DecodeInfo 3 2)) (Some 16)
             (Scripted.world Scripted.healthy) = Val AlphaSizeMismatch w').
Proof.
  apply (C6_width_mismatch Scripted.externals Scripted.tile 3 None
           (mk_DecodeInfo 3 2) (Some 16) (Scripted.world Scripted.healthy)
           Scripted.frame_4x2
           (Scripted.mk_Script AOM_CODEC_OK AOM_CODEC_OK None 1)).
  - apply (scripted_decodes_to Scripted.healthy); try reflexivity.
    repeat split; discriminate.
  - discriminate.
  - discriminate.
Defined.

(** C7. When dimension validation fails after a successful decode, no
    conversion routine is called and the caller's bitmaps are left as they
    were; the mismatch status is returned after the decoder has been
    released, the release being the last of the four calls made. *)
Theorem C7_mismatch_leaves_bitmap {AomState : Type} (ext : Externals AomState)
    (buffer : option (list byte)) (size : N)
    (colorInfo : option ColorConversionInfo) (expectation : DecodeInfo)
    (output : option addr) (w : World AomState)
    (img : aom_image_t) (s3 : AomState) :
  decodes_to ext buffer size output w img s3 →
  validation_fails expectation img →
  ∃ w',
    DecodeColorImage ext buffer size colorInfo (Some expectation) output w
      = Val ColorSizeMismatch w'
    ∧ DecodeAlphaImage ext buffer size (Some expectation) output w
      = Val AlphaSizeMismatch w'
    ∧ bitmaps w' = bitmaps w
    ∧ calls w' = calls w ++ [call_dec_init; call_decode; call_get_frame;
                             call_destroy]
    ∧ (call_ConvertColorImage ∉ [call_dec_init; call_decode; call_get_frame;
                                 call_destroy])
    ∧ (call_ConvertAlphaImage ∉ [call_dec_init; call_decode; call_get_frame;
                                 call_destroy])
    ∧ aom w' = (ext_destroy ext s3).2.
Proof.
  intros Hdec Hfail.
  destruct (decodes_to_outcomes ext buffer size colorInfo (Some expectation)
              output w img s3 Hdec) as [-> ->].
  unfold outcome_after_init. simpl.
  rewrite (bool_decide_eq_true_2 _ Hfail).
  eexists. repeat split;
    rewrite !not_elem_of_cons; repeat split;
    (discriminate || apply not_elem_of_nil).
Qed.

Lemma C7_mismatch_leaves_bitmap_witness :
  ∃ w',
    DecodeColorImage Scripted.externals Scripted.tile 3 None
      (Some (mk_DecodeInfo 3 2)) (Some 16) (Scripted.world Scripted.healthy)
      = Val ColorSizeMismatch w'
    ∧ DecodeAlphaImage Scripted.externals Scripted.tile 3
        (Some (mk_DecodeInfo 3 2)) (Some 16) (Scripted.world Scripted.healthy)
      = Val AlphaSizeMismatch w'
    ∧ bitmaps w' = {[ 16 := Scripted.blank ]}.
Proof.
  destruct (C7_mismatch_leaves_bitmap Scripted.externals Scripted.tile 3 None
              (mk_DecodeInfo 3 2) (Some 16) (Scripted.world Scripted.healthy)
              Scripted.frame_4x2
              (Scripted.mk_Script AOM_CODEC_OK AOM_CODEC_OK None 1))
    as (w' & Hc & Ha & Hb & _).
  - apply (scripted_decodes_to Scripted.healthy); try reflexivity.
    repeat split; discriminate.
  - left. split; discriminate.
  - exists w'. by repeat split.
Defined.

(** C8. When the decode succeeds and dimension validation passes, the
    status answered by the conversion routine ([ConvertColorImage] in the
    colour path, [ConvertAlphaImage] in the alpha path) is the status
    returned to the caller, whatever it is; the bitmaps are as the
    conversion left them and the decoder is released after it. *)
Theorem C8_conversion_status_verbatim {AomState : Type}
    (ext : Externals AomState)
    (buffer : option (list byte)) (size : N)
    (colorInfo : option ColorConversionInfo) (expectation : DecodeInfo)
    (output : option addr) (w : World AomState)
    (img : aom_image_t) (s3 : AomState)
    (colorStatus alphaStatus : DecoderStatus)
    (colorBitmaps alphaBitmaps : gmap addr BitmapData) :
  decodes_to ext buffer size output w img s3 →
  ¬ validation_fails expectation img →
  ext_ConvertColorImage ext (Some img) colorInfo (Some expectation) output
    (bitmaps w) = (colorStatus, colorBitmaps) →
  ext_ConvertAlphaImage ext (Some img) (Some expectation) output
    (bitmaps w) = (alphaStatus, alphaBitmaps) →
  DecodeColorImage ext buffer size colorInfo (Some expectation) output w
    = Val colorStatus
        (mk_World (ext_destroy ext s3).2 colorBitmaps
           (calls w ++ [call_dec_init; call_decode; call_get_frame;
                        call_ConvertColorImage; call_destroy]))
  ∧ DecodeAlphaImage ext buffer size (Some expectation) output w
    = Val alphaStatus
        (mk_World (ext_destroy ext s3).2 alphaBitmaps
           (calls w ++ [call_dec_init; call_decode; call_get_frame;
                        call_ConvertAlphaImage; call_destroy])).
Proof.
  intros Hdec Hpass Hc Ha.
  destruct (decodes_to_outcomes ext buffer size colorInfo (Some expectation)
              output w img s3 Hdec) as [-> ->].
  unfold outcome_after_init. simpl.
  rewrite (bool_decide_eq_false_2 _ Hpass), Hc, Ha. done.
Qed.

Lemma C8_conversion_status_verbatim_witness :
  let w := Scripted.world Scripted.healthy in
  let deep := mk_aom_image 0 10 4 2 [x01; x02] in
  let w10 := Scripted.world
               (Scripted.mk_Script AOM_CODEC_OK AOM_CODEC_OK (Some deep) 0) in
  (∃ w', DecodeColorImage Scripted.externals Scripted.tile 3 None
           (Some (mk_DecodeInfo 4 2)) (Some 16) w = Val Ok w')
  ∧ (∃ w', DecodeAlphaImage Scripted.externals Scripted.tile 3
             (Some (mk_DecodeInfo 0 0)) (Some 16) w10 = Val DecodeFailed w').
Proof.
  intros w deep w10. split.
  - eexists.
    refine (proj1 (C8_conversion_status_verbatim Scripted.externals
              Scripted.tile 3 None (mk_DecodeInfo 4 2) (Some 16) w
              Scripted.frame_4x2
              (Scripted.mk_Script AOM_CODEC_OK AOM_CODEC_OK None 1)
              Ok Ok _ _ _ _ eq_refl eq_refl)).
    + apply (scripted_decodes_to Scripted.healthy); try reflexivity.
      repeat split; discriminate.
    + intros [[_ H] | [_ H]]; by apply H.
  - eexists.
    refine (proj2 (C8_conversion_status_verbatim Scripted.externals
              Scripted.tile 3 None (mk_DecodeInfo 0 0) (Some 16) w10
              deep
              (Scripted.mk_Script AOM_CODEC_OK AOM_CODEC_OK None 1)
              DecodeFailed DecodeFailed _ _ _ _ eq_refl eq_refl)).
    + split; [repeat split; discriminate |]. by eexists _, _.
    + intros [[H _] | [H _]]; by apply H.
Defined.

Ltac not_in_calls :=
  rewrite ?not_elem_of_cons; repeat split;
  first [discriminate | apply not_elem_of_nil | congruence].




(** A call that passed the input validation starts by initialising a
    decoder, whatever its other arguments are. *)
Lemma pipeline_starts_with_init {AomState : Type} (ext : Externals AomState)
    mismatchStatus c f buffer size decodeInfo output (w : World AomState) :
  checked_args_ok buffer size output →
  ∃ l, calls (world_of
                (DecodeImageWith ext mismatchStatus
                   (λ aomImage, on_bitmaps c (f aomImage))
                   buffer size decodeInfo output w))
       = calls w ++ call_dec_init :: l.
Proof.
  intros Ha.
  destruct (ext_dec_init ext av1_dx_iface (aom w)) as [e s1] eqn:Hi.
  destruct (decide (e = AOM_CODEC_OK)) as [-> | He].
  - destruct (ext_decode ext buffer size s1) as [e s2] eqn:Hd.
    destruct (ext_get_frame ext s2) as [frame s3] eqn:Hg.
    rewrite (path_outcome ext _ _ _ _ _ _ _ w s1 e s2 frame s3 Ha Hi Hd Hg).
    unfold outcome_after_init.
    destruct (bool_decide (e = AOM_CODEC_OK));
      [destruct frame as [img|], decodeInfo as [di|];
       [destruct (bool_decide (validation_fails di img)) | | |] |];
      simpl; by eexists.
  - rewrite (path_init_failed ext _ _ _ _ _ _ w e s1 Ha Hi He).
    by exists [].
Qed.

Lemma calls_grew {AomState : Type} (w w' : World AomState) c l :
  calls w' = calls w ++ c :: l → w' ≠ w.
Proof.
  intros H ->. apply (f_equal length) in H.
  rewrite length_app in H. simpl in H. lia.
Qed.

(** C9. The input validation of the entry points covers neither the
    [DecodeInfo] pointer nor, in the colour path, the [ColorConversionInfo]
    pointer: with both null and the three checked arguments in order, the
    call is not answered [NullParameter] at the door but goes on to
    initialise a decoder.  If the decode then succeeds with a null
    [DecodeInfo], the run traps on the dereference of that pointer in the
    dimension check, after three calls to libaom and without releasing
    the decoder.  A null [ColorConversionInfo] with a valid [DecodeInfo] is
    handed to [ConvertColorImage] as it is. *)
Theorem C9_decode_info_unchecked {AomState : Type} (ext : Externals AomState)
    (buffer : option (list byte)) (size : N)
    (colorInfo : option ColorConversionInfo)
    (output : option addr) (w : World AomState) :
  checked_args_ok buffer size output →
  (DecodeColorImage ext buffer size None None output w ≠ Val NullParameter w
   ∧ ∃ l, calls (world_of (DecodeColorImage ext buffer size None None
                             output w))
          = calls w ++ call_dec_init :: l)
  ∧ (DecodeAlphaImage ext buffer size None output w ≠ Val NullParameter w
     ∧ ∃ l, calls (world_of (DecodeAlphaImage ext buffer size None output w))
            = calls w ++ call_dec_init :: l)
  ∧ (∀ img s3,
       decodes_to ext buffer size output w img s3 →
       DecodeColorImage ext buffer size colorInfo None output w
         = Trap NullDereference
             (mk_World s3 (bitmaps w)
                (calls w ++ [call_dec_init; call_decode; call_get_frame]))
       ∧ DecodeAlphaImage ext buffer size None output w
         = Trap NullDereference
             (mk_World s3 (bitmaps w)
                (calls w ++ [call_dec_init; call_decode; call_get_frame])))
  ∧ (∀ img s3 expectation,
       decodes_to ext buffer size output w img s3 →
       ¬ validation_fails expectation img →
       value_of (DecodeColorImage ext buffer size None (Some expectation)
                   output w)
       = Some (ext_ConvertColorImage ext (Some img) None (Some expectation)
                 output (bitmaps w)).1).
Proof.
  intros Ha. split; [| split; [| split]].
  - destruct (pipeline_starts_with_init ext ColorSizeMismatch
                call_ConvertColorImage
                (λ img, ext_ConvertColorImage ext img None None output)
                buffer size None output w Ha) as [l Hl].
    rewrite DecodeColorImage_pipeline.
    split; [| by exists l].
    intros Heq.
    unfold ConvertColorImage in Heq. rewrite Heq in Hl.
    by apply calls_grew in Hl.
  - destruct (pipeline_starts_with_init ext AlphaSizeMismatch
                call_ConvertAlphaImage
                (λ img, ext_ConvertAlphaImage ext img None output)
                buffer size None output w Ha) as [l Hl].
    rewrite DecodeAlphaImage_pipeline.
    split; [| by exists l].
    intros Heq.
    unfold ConvertAlphaImage in Heq. rewrite Heq in Hl.
    by apply calls_grew in Hl.
  - intros img s3 Hdec.
    by destruct (decodes_to_outcomes ext buffer size colorInfo None
                   output w img s3 Hdec) as [-> ->].
  - intros img s3 expectation Hdec Hpass.
    destruct (decodes_to_outcomes ext buffer size None (Some expectation)
                output w img s3 Hdec) as [-> _].
    unfold outcome_after_init. simpl.
    by rewrite (bool_decide_eq_false_2 _ Hpass).
Qed.

Lemma C9_decode_info_unchecked_witness :
  let w := Scripted.world Scripted.healthy in
  DecodeColorImage Scripted.externals Scripted.tile 3 None None (Some 16) w
    ≠ Val NullParameter w
  ∧ DecodeAlphaImage Scripted.externals Scripted.tile 3 None (Some 16) w
    = Trap NullDereference
        (mk_World (Scripted.mk_Script AOM_CODEC_OK AOM_CODEC_OK None 1)
           (bitmaps w) [call_dec_init; call_decode; call_get_frame]).
Proof.
  intros w.
  destruct (C9_decode_info_unchecked Scripted.externals Scripted.tile 3 None
              (Some 16) w) as ([Hc _] & _ & Htrap & _);
    [repeat split; discriminate |].
  split; [exact Hc |].
  refine (proj2 (Htrap Scripted.frame_4x2
                   (Scripted.mk_Script AOM_CODEC_OK AOM_CODEC_OK None 1) _)).
  apply (scripted_decodes_to Scripted.healthy); try reflexivity.
  repeat split; discriminate.
Defined.

(** *** The two entry points side by side *)

Lemma checked_args_cases {A B : Type} (buffer : option A) (size : N)
    (output : option B) :
  checked_args_ok buffer size output
  ∨ (buffer = None ∨ size = 0 ∨ output = None).
Proof.
  unfold checked_args_ok.
  destruct buffer, (N.eq_dec size 0), output; simpl; auto.
Qed.

(** The ways a call can go, for the two entry points side by side. *)
Lemma entry_points_cases {AomState : Type} (ext : Externals AomState)
    buffer size colorInfo decodeInfo output (w : World AomState) :
  let color := DecodeColorImage ext buffer size colorInfo decodeInfo output w in
  let alpha := DecodeAlphaImage ext buffer size decodeInfo output w in
  (color = Val NullParameter w ∧ alpha = Val NullParameter w)
  ∨ (∃ e s1,
       e ≠ AOM_CODEC_OK
       ∧ color = Val (if bool_decide (e = AOM_CODEC_MEM_ERROR)
                      then OutOfMemory else DecodeFailed)
                     (after_aom w s1 [call_dec_init])
       ∧ alpha = Val (if bool_decide (e = AOM_CODEC_MEM_ERROR)
                      then OutOfMemory else DecodeFailed)
                     (after_aom w s1 [call_dec_init]))
  ∨ (checked_args_ok buffer size output
     ∧ ∃ s1 e s2 frame s3,
         ext_dec_init ext av1_dx_iface (aom w) = (AOM_CODEC_OK, s1)
         ∧ ext_decode ext buffer size s1 = (e, s2)
         ∧ ext_get_frame ext s2 = (frame, s3)
         ∧ color = outcome_after_init ext ColorSizeMismatch
                     call_ConvertColorImage
                     (λ img, ext_ConvertColorImage ext img colorInfo
                               decodeInfo output)
                     decodeInfo w e s2 frame s3
         ∧ alpha = outcome_after_init ext AlphaSizeMismatch
                     call_ConvertAlphaImage
                     (λ img, ext_ConvertAlphaImage ext img decodeInfo output)
                     decodeInfo w e s2 frame s3).
Proof.
  intros color alpha. unfold color, alpha.
  destruct (checked_args_cases buffer size output) as [Ha | Hbad].
  - right.
    destruct (ext_dec_init ext av1_dx_iface (aom w)) as [e1 s1] eqn:Hi.
    destruct (decide (e1 = AOM_CODEC_OK)) as [-> | He].
    + right. split; [done |].
      destruct (ext_decode ext buffer size s1) as [e s2] eqn:Hd.
      destruct (ext_get_frame ext s2) as [frame s3] eqn:Hg.
      exists s1, e, s2, frame, s3.
      rewrite (DecodeColorImage_outcome ext _ _ colorInfo _ _ w s1 _ s2 _ s3
                 Ha Hi Hd Hg).
      by rewrite (DecodeAlphaImage_outcome ext _ _ _ _ w s1 _ s2 _ s3
                    Ha Hi Hd Hg).
    + left. exists e1, s1.
      rewrite DecodeColorImage_pipeline, DecodeAlphaImage_pipeline.
      by rewrite !(path_init_failed ext _ _ _ _ _ _ w e1 s1 Ha Hi He).
  - left.
    rewrite DecodeColorImage_pipeline, DecodeAlphaImage_pipeline.
    by rewrite !(path_null_parameter ext _ _ _ _ _ _ w Hbad).
Qed.

(** C10. The two entry points are one pipeline: each is the routine
    [DecodeImageWith], which runs the null check, the initialisation and
    its error mapping, the single-frame decode, the dimension check, the
    conversion and the unconditional release, instantiated with its own
    mismatch status and its own conversion routine.  Given the same
    arguments in the same world and the same collaborators:
    (1) on every call that does not reach the dimension check (refused
    arguments, failed initialisation, failed decode, empty queue) or that
    reaches it with a null [DecodeInfo], the two entry points have the
    very same outcome, status and world or trap;
    (2) on a dimension mismatch the colour path returns
    [ColorSizeMismatch] and the alpha path [AlphaSizeMismatch], in the
    same world;
    (3) when the check passes each returns the status of its own
    conversion routine, after the same calls up to the routine called,
    with libaom in the same state and the bitmaps as its routine wrote
    them;
    (4) so, when the two conversion routines answer the same status on
    the decoded frame, whatever they write, the two entry points trap
    alike or return the same status, except for [ColorSizeMismatch]
    against [AlphaSizeMismatch], which they return on a dimension
    mismatch. *)
Theorem C10_same_pipeline {AomState : Type} (ext : Externals AomState)
    (buffer : option (list byte)) (size : N)
    (colorInfo : option ColorConversionInfo) (decodeInfo : option DecodeInfo)
    (output : option addr) (w : World AomState) :
  let color := DecodeColorImage ext buffer size colorInfo decodeInfo output w in
  let alpha := DecodeAlphaImage ext buffer size decodeInfo output w in
  let color_answer img :=
    ext_ConvertColorImage ext (Some img) colorInfo decodeInfo output
      (bitmaps w) in
  let alpha_answer img :=
    ext_ConvertAlphaImage ext (Some img) decodeInfo output (bitmaps w) in
  DecodeColorImage ext buffer size colorInfo decodeInfo output
  = DecodeImageWith ext ColorSizeMismatch
      (λ aomImage, ConvertColorImage ext aomImage colorInfo decodeInfo output)
      buffer size decodeInfo output
  ∧ DecodeAlphaImage ext buffer size decodeInfo output
  = DecodeImageWith ext AlphaSizeMismatch
      (λ aomImage, ConvertAlphaImage ext aomImage decodeInfo output)
      buffer size decodeInfo output
  ∧ ((¬ ∃ img s3 di, decodes_to ext buffer size output w img s3
                     ∧ decodeInfo = Some di) →
     color = alpha)
  ∧ (∀ img s3 di,
       decodes_to ext buffer size output w img s3 →
       decodeInfo = Some di →
       validation_fails di img →
       ∃ w', color = Val ColorSizeMismatch w'
             ∧ alpha = Val AlphaSizeMismatch w'
             ∧ bitmaps w' = bitmaps w)
  ∧ (∀ img s3 di,
       decodes_to ext buffer size output w img s3 →
       decodeInfo = Some di →
       ¬ validation_fails di img →
       ∃ wc wa,
         color = Val (color_answer img).1 wc
         ∧ alpha = Val (alpha_answer img).1 wa
         ∧ aom wc = aom wa
         ∧ bitmaps wc = (color_answer img).2
         ∧ bitmaps wa = (alpha_answer img).2
         ∧ calls wc = calls w ++ [call_dec_init; call_decode; call_get_frame;
                                  call_ConvertColorImage; call_destroy]
         ∧ calls wa = calls w ++ [call_dec_init; call_decode; call_get_frame;
                                  call_ConvertAlphaImage; call_destroy])
  ∧ ((∀ img s3,
        decodes_to ext buffer size output w img s3 →
        (color_answer img).1 = (alpha_answer img).1) →
     same_pipeline (mismatch_decoded ext buffer size decodeInfo output w)
       color alpha).
Proof.
  intros color alpha color_answer alpha_answer.
  split; [reflexivity |]. split; [reflexivity |].
  split; [| split; [| split]].
  - intros Hnot.
    destruct (entry_points_cases ext buffer size colorInfo decodeInfo
                output w)
      as [[Hc Hal] | [(e & s1 & _ & Hc & Hal)
                     | (Ha & s1 & e & s2 & frame & s3 & Hi & Hd & Hg
                        & Hc & Hal)]];
      unfold color, alpha; rewrite Hc, Hal; [done | done |].
    unfold outcome_after_init. case_bool_decide as He; [| done].
    destruct frame as [img|], decodeInfo as [di|]; try done.
    exfalso. apply Hnot. exists img, s3, di. subst e.
    split; [| done]. split; [done |]. by exists s1, s2.
  - intros img s3 di Hdec -> Hfail. unfold color, alpha.
    destruct (decodes_to_outcomes ext buffer size colorInfo (Some di)
                output w img s3 Hdec) as [-> ->].
    unfold outcome_after_init. simpl.
    rewrite (bool_decide_eq_true_2 _ Hfail). by eexists.
  - intros img s3 di Hdec -> Hpass. unfold color, alpha.
    destruct (decodes_to_outcomes ext buffer size colorInfo (Some di)
                output w img s3 Hdec) as [-> ->].
    unfold outcome_after_init. simpl.
    rewrite (bool_decide_eq_false_2 _ Hpass). by eexists _, _.
  - intros Hsame.
    destruct (entry_points_cases ext buffer size colorInfo decodeInfo
                output w)
      as [[Hc Hal] | [(e & s1 & _ & Hc & Hal)
                     | (Ha & s1 & e & s2 & frame & s3 & Hi & Hd & Hg
                        & Hc & Hal)]];
      unfold color, alpha; rewrite Hc, Hal; [by left | by left |].
    unfold outcome_after_init. case_bool_decide as He; [| by left].
    subst e. destruct frame as [img|], decodeInfo as [di|];
      simpl; try done; try (by left).
    assert (Hdec : decodes_to ext buffer size output w img s3).
    { split; [done |]. by exists s1, s2. }
    case_bool_decide as Hfail; simpl.
    + right. split; [done |]. split; [done |]. by exists img, s3, di.
    + left. exact (Hsame img s3 Hdec).
Qed.

Lemma C10_same_pipeline_witness :
  let w := Scripted.world Scripted.healthy in
  let s3 := Scripted.mk_Script AOM_CODEC_OK AOM_CODEC_OK None 1 in
  (∃ w', DecodeColorImage Scripted.externals_two Scripted.tile 3 None
           (Some (mk_DecodeInfo 4 3)) (Some 16) w = Val ColorSizeMismatch w'
         ∧ DecodeAlphaImage Scripted.externals_two Scripted.tile 3
             (Some (mk_DecodeInfo 4 3)) (Some 16) w = Val AlphaSizeMismatch w'
         ∧ bitmaps w' = bitmaps w)
  ∧ same_pipeline
      (mismatch_decoded Scripted.externals_two Scripted.tile 3
         (Some (mk_DecodeInfo 4 2)) (Some 16) w)
      (DecodeColorImage Scripted.externals_two Scripted.tile 3 None
         (Some (mk_DecodeInfo 4 2)) (Some 16) w)
      (DecodeAlphaImage Scripted.externals_two Scripted.tile 3
         (Some (mk_DecodeInfo 4 2)) (Some 16) w)
  ∧ DecodeColorImage Scripted.externals_two None 3 None None (Some 16) w
    = DecodeAlphaImage Scripted.externals_two None 3 None (Some 16) w.
Proof.
  intros w s3.
  assert (Hdec : decodes_to Scripted.externals_two Scripted.tile 3 (Some 16)
                   w Scripted.frame_4x2 s3).
  { split; [repeat split; discriminate |]. by eexists _, _. }
  split; [| split].
  - destruct (C10_same_pipeline Scripted.externals_two Scripted.tile 3 None
                (Some (mk_DecodeInfo 4 3)) (Some 16) w)
      as (_ & _ & _ & Hmis & _).
    apply (Hmis Scripted.frame_4x2 s3 (mk_DecodeInfo 4 3) Hdec eq_refl).
    right. split; discriminate.
  - destruct (C10_same_pipeline Scripted.externals_two Scripted.tile 3 None
                (Some (mk_DecodeInfo 4 2)) (Some 16) w)
      as (_ & _ & _ & _ & _ & Hsame).
    apply Hsame.
    intros img s3' (_ & s1 & s2 & Hi & Hd & Hg).
    injection Hi as <-. injection Hd as <-. injection Hg as <- _.
    reflexivity.
  - destruct (C10_same_pipeline Scripted.externals_two None 3 None None
                (Some 16) w) as (_ & _ & Heq & _).
    apply Heq.
    intros (img & s3' & di & _ & [=]).
Defined.

(** ** Further properties of the entry points *)

(** The three ways a call can go, for the pipeline with a conversion step
    that is a collaborator writing the caller's bitmaps. *)
Lemma pipeline_cases {AomState : Type} (ext : Externals AomState)
    mismatchStatus c f buffer size decodeInfo output (w : World AomState) :
  let r := DecodeImageWith ext mismatchStatus
             (λ aomImage, on_bitmaps c (f aomImage))
             buffer size decodeInfo output w in
  ((buffer = None ∨ size = 0 ∨ output = None) ∧ r = Val NullParameter w)
  ∨ (checked_args_ok buffer size output
     ∧ ∃ e s1,
         ext_dec_init ext av1_dx_iface (aom w) = (e, s1)
         ∧ e ≠ AOM_CODEC_OK
         ∧ r = Val (if bool_decide (e = AOM_CODEC_MEM_ERROR)
                    then OutOfMemory else DecodeFailed)
                   (after_aom w s1 [call_dec_init]))
  ∨ (checked_args_ok buffer size output
     ∧ ∃ s1 e s2 frame s3,
         ext_dec_init ext av1_dx_iface (aom w) = (AOM_CODEC_OK, s1)
         ∧ ext_decode ext buffer size s1 = (e, s2)
         ∧ ext_get_frame ext s2 = (frame, s3)
         ∧ r = outcome_after_init ext mismatchStatus c f decodeInfo w
                 e s2 frame s3).
Proof.
  intros r. unfold r.
  destruct (checked_args_cases buffer size output) as [Ha | Hbad].
  - right.
    destruct (ext_dec_init ext av1_dx_iface (aom w)) as [e1 s1] eqn:Hi.
    destruct (decide (e1 = AOM_CODEC_OK)) as [-> | He].
    + right. split; [done |].
      destruct (ext_decode ext buffer size s1) as [e s2] eqn:Hd.
      destruct (ext_get_frame ext s2) as [frame s3] eqn:Hg.
      exists s1, e, s2, frame, s3. repeat split; try done.
      by apply (path_outcome ext _ _ _ _ _ _ _ w s1).
    + left. split; [done |]. exists e1, s1. repeat split; try done.
      by apply path_init_failed.
  - left. split; [done |]. by apply path_null_parameter.
Qed.

Ltac in_list :=
  repeat first [apply list_elem_of_here | apply list_elem_of_further].

Lemma pipeline_trace {AomState : Type} (ext : Externals AomState)
    mismatchStatus c f buffer size decodeInfo output (w : World AomState) :
  match DecodeImageWith ext mismatchStatus
          (λ aomImage, on_bitmaps c (f aomImage))
          buffer size decodeInfo output w
  with
  | Val _ w' => ∃ l, calls w' = calls w ++ l ∧ l ∈ returning_traces c
  | Trap _ w' =>
      calls w' = calls w ++ [call_dec_init; call_decode; call_get_frame]
  end.
Proof.
  destruct (pipeline_cases ext mismatchStatus c f buffer size decodeInfo
              output w)
    as [[_ ->] | [(_ & e & s1 & _ & _ & ->)
                 | (_ & s1 & e & s2 & frame & s3 & _ & _ & _ & ->)]].
  - exists []. split; [by rewrite (right_id_L [] (++)) | in_list].
  - eexists. split; [reflexivity | in_list].
  - unfold outcome_after_init.
    destruct (bool_decide (e = AOM_CODEC_OK));
      [destruct frame as [img|], decodeInfo as [di|];
       [destruct (bool_decide (validation_fails di img)) | | |] |];
      simpl; try done; (eexists; split; [reflexivity | in_list]).
Qed.

(** X1. The calls a run makes to its collaborators follow one protocol, in
    both entry points and whatever the collaborators answer.  A returning
    call adds to the trace nothing, or the initialisation alone, or the
    initialisation, the decode, then the reading of the output queue and
    then the conversion as far as the run got, and last the release: no
    step is made twice or out of order, and the conversion, which reads
    the decoder-owned frame, always comes before the release.  A run that
    traps has made the initialisation, the decode and the reading of the
    output queue, and nothing else. *)
Theorem X1_call_protocol {AomState : Type} (ext : Externals AomState)
    (buffer : option (list byte)) (size : N)
    (colorInfo : option ColorConversionInfo) (decodeInfo : option DecodeInfo)
    (output : option addr) (w : World AomState) :
  match DecodeColorImage ext buffer size colorInfo decodeInfo output w with
  | Val _ w' =>
      ∃ l, calls w' = calls w ++ l
           ∧ l ∈ returning_traces call_ConvertColorImage
  | Trap _ w' =>
      calls w' = calls w ++ [call_dec_init; call_decode; call_get_frame]
  end
  ∧ match DecodeAlphaImage ext buffer size decodeInfo output w with
    | Val _ w' =>
        ∃ l, calls w' = calls w ++ l
             ∧ l ∈ returning_traces call_ConvertAlphaImage
    | Trap _ w' =>
        calls w' = calls w ++ [call_dec_init; call_decode; call_get_frame]
    end.
Proof.
  split.
  - exact (pipeline_trace ext ColorSizeMismatch call_ConvertColorImage
             (λ img, ext_ConvertColorImage ext img colorInfo decodeInfo output)
             buffer size decodeInfo output w).
  - exact (pipeline_trace ext AlphaSizeMismatch call_ConvertAlphaImage
             (λ img, ext_ConvertAlphaImage ext img decodeInfo output)
             buffer size decodeInfo output w).
Qed.

Lemma pipeline_trap_iff {AomState : Type} (ext : Externals AomState)
    mismatchStatus c f buffer size decodeInfo output (w : World AomState) :
  is_trap (DecodeImageWith ext mismatchStatus
             (λ aomImage, on_bitmaps c (f aomImage))
             buffer size decodeInfo output w)
  ↔ decodeInfo = None
    ∧ ∃ img s3, decodes_to ext buffer size output w img s3.
Proof.
  split.
  - destruct (pipeline_cases ext mismatchStatus c f buffer size decodeInfo
                output w)
      as [[_ ->] | [(_ & e & s1 & _ & _ & ->)
                   | (Ha & s1 & e & s2 & frame & s3 & Hi & Hd & Hg & ->)]];
      [done | done |].
    unfold outcome_after_init. case_bool_decide as He; [| done]. subst e.
    destruct frame as [img|], decodeInfo as [di|]; simpl; try done.
    + by case_bool_decide.
    + intros _. split; [done |]. exists img, s3. split; [done |].
      by exists s1, s2.
  - intros (-> & img & s3 & Ha & s1 & s2 & Hi & Hd & Hg).
    by rewrite (path_outcome ext _ _ _ _ _ _ _ w s1 _ s2 _ s3 Ha Hi Hd Hg).
Qed.

(** X2. The only way either entry point traps is the unchecked
    [DecodeInfo]: a run traps exactly when that pointer is null and the
    decode succeeded (the checked arguments in order, the decoder
    initialised, the decode call without error, a frame in the queue).  A
    null [DecodeInfo] is therefore harmless on every failure path, a null
    [ColorConversionInfo] never makes the core trap, and the two entry
    points trap on the same calls. *)
Theorem X2_trap_exactly_on_null_decode_info {AomState : Type}
    (ext : Externals AomState)
    (buffer : option (list byte)) (size : N)
    (colorInfo : option ColorConversionInfo) (decodeInfo : option DecodeInfo)
    (output : option addr) (w : World AomState) :
  (is_trap (DecodeColorImage ext buffer size colorInfo decodeInfo output w)
   ↔ decodeInfo = None
     ∧ ∃ img s3, decodes_to ext buffer size output w img s3)
  ∧ (is_trap (DecodeAlphaImage ext buffer size decodeInfo output w)
     ↔ decodeInfo = None
       ∧ ∃ img s3, decodes_to ext buffer size output w img s3).
Proof.
  split.
  - exact (pipeline_trap_iff ext ColorSizeMismatch call_ConvertColorImage
             (λ img, ext_ConvertColorImage ext img colorInfo decodeInfo output)
             buffer size decodeInfo output w).
  - exact (pipeline_trap_iff ext AlphaSizeMismatch call_ConvertAlphaImage
             (λ img, ext_ConvertAlphaImage ext img decodeInfo output)
             buffer size decodeInfo output w).
Qed.

Lemma X2_trap_exactly_on_null_decode_info_witness :
  is_trap (DecodeColorImage Scripted.externals Scripted.tile 3 None None
             (Some 16) (Scripted.world Scripted.healthy))
  ∧ ¬ is_trap (DecodeAlphaImage Scripted.externals Scripted.tile 3 None
                 (Some 16)
                 (Scripted.world
                    (Scripted.mk_Script AOM_CODEC_OK AOM_CODEC_ERROR
                       (Some Scripted.frame_4x2) 0))).
Proof.
  split.
  - apply (proj1 (X2_trap_exactly_on_null_decode_info Scripted.externals
                    Scripted.tile 3 None None (Some 16)
                    (Scripted.world Scripted.healthy))).
    split; [reflexivity |].
    exists Scripted.frame_4x2,
           (Scripted.mk_Script AOM_CODEC_OK AOM_CODEC_OK None 1).
    apply (scripted_decodes_to Scripted.healthy); try reflexivity.
    repeat split; discriminate.
  - intros Ht.
    apply (proj2 (X2_trap_exactly_on_null_decode_info Scripted.externals
                    Scripted.tile 3 None None (Some 16) _)) in Ht.
    destruct Ht as (_ & img & s3 & _ & s1 & s2 & Hi & Hd & _).
    injection Hi as <-. discriminate Hd.
Defined.

Lemma pipeline_bitmaps {AomState : Type} (ext : Externals AomState)
    mismatchStatus c f buffer size decodeInfo output (w : World AomState) l :
  let r := DecodeImageWith ext mismatchStatus
             (λ aomImage, on_bitmaps c (f aomImage))
             buffer size decodeInfo output w in
  calls (world_of r) = calls w ++ l →
  c ∉ l →
  bitmaps (world_of r) = bitmaps w.
Proof.
  intros r. unfold r.
  destruct (pipeline_cases ext mismatchStatus c f buffer size decodeInfo
              output w)
    as [[_ ->] | [(_ & e & s1 & _ & _ & ->)
                 | (_ & s1 & e & s2 & frame & s3 & _ & _ & _ & ->)]];
    [done | done |].
  unfold outcome_after_init.
  destruct (bool_decide (e = AOM_CODEC_OK));
    [destruct frame as [img|], decodeInfo as [di|];
     [destruct (bool_decide (validation_fails di img)) | | |] |];
    simpl; try done.
  intros Hl%(inj (app (calls w))) Hc. subst l.
  exfalso. apply Hc. in_list.
Qed.

(** X3. The caller's bitmaps change only through a conversion routine: in
    every run of either entry point that does not call its conversion
    routine (refused arguments, failed initialisation, failed decode,
    empty queue, size mismatch, or a run that traps) the bitmaps are left
    exactly as they were. *)
Theorem X3_bitmaps_change_only_by_conversion {AomState : Type}
    (ext : Externals AomState)
    (buffer : option (list byte)) (size : N)
    (colorInfo : option ColorConversionInfo) (decodeInfo : option DecodeInfo)
    (output : option addr) (w : World AomState) (lc la : list Call) :
  calls (world_of (DecodeColorImage ext buffer size colorInfo decodeInfo
                     output w)) = calls w ++ lc →
  calls (world_of (DecodeAlphaImage ext buffer size decodeInfo output w))
    = calls w ++ la →
  (call_ConvertColorImage ∉ lc →
   bitmaps (world_of (DecodeColorImage ext buffer size colorInfo decodeInfo
                        output w)) = bitmaps w)
  ∧ (call_ConvertAlphaImage ∉ la →
     bitmaps (world_of (DecodeAlphaImage ext buffer size decodeInfo output w))
     = bitmaps w).
Proof.
  intros Hc Ha. split.
  - exact (pipeline_bitmaps ext ColorSizeMismatch call_ConvertColorImage
             (λ img, ext_ConvertColorImage ext img colorInfo decodeInfo output)
             buffer size decodeInfo output w lc Hc).
  - exact (pipeline_bitmaps ext AlphaSizeMismatch call_ConvertAlphaImage
             (λ img, ext_ConvertAlphaImage ext img decodeInfo output)
             buffer size decodeInfo output w la Ha).
Qed.

Lemma X3_bitmaps_change_only_by_conversion_witness :
  let w := Scripted.world
             (Scripted.mk_Script AOM_CODEC_OK AOM_CODEC_CORRUPT_FRAME None 0) in
  bitmaps (world_of (DecodeColorImage Scripted.externals Scripted.tile 3
                       None (Some (mk_DecodeInfo 0 0)) (Some 16) w))
    = {[ 16 := Scripted.blank ]}
  ∧ bitmaps (world_of (DecodeAlphaImage Scripted.externals Scripted.tile 3
                         None (Some 16) (Scripted.world Scripted.healthy)))
    = {[ 16 := Scripted.blank ]}.
Proof.
  intros w. split.
  - refine (proj1 (X3_bitmaps_change_only_by_conversion Scripted.externals
                     Scripted.tile 3 None (Some (mk_DecodeInfo 0 0)) (Some 16)
                     w [call_dec_init; call_decode; call_destroy]
                     [call_dec_init; call_decode; call_destroy]
                     eq_refl eq_refl) _).
    not_in_calls.
  - refine (proj2 (X3_bitmaps_change_only_by_conversion Scripted.externals
                     Scripted.tile 3 None None (Some 16)
                     (Scripted.world Scripted.healthy)
                     [call_dec_init; call_decode; call_get_frame]
                     [call_dec_init; call_decode; call_get_frame]
                     eq_refl eq_refl) _).
    not_in_calls.
Defined.

Lemma pipeline_ok {AomState : Type} (ext : Externals AomState)
    mismatchStatus c f buffer size decodeInfo output (w w' : World AomState) :
  mismatchStatus ≠ Ok →
  DecodeImageWith ext mismatchStatus (λ aomImage, on_bitmaps c (f aomImage))
    buffer size decodeInfo output w = Val Ok w' →
  ∃ img s3 di,
    decodes_to ext buffer size output w img s3
    ∧ decodeInfo = Some di
    ∧ ¬ validation_fails di img
    ∧ f (Some img) (bitmaps w) = (Ok, bitmaps w')
    ∧ calls w' = calls w ++ [call_dec_init; call_decode; call_get_frame; c;
                             call_destroy].
Proof.
  intros Hms.
  destruct (pipeline_cases ext mismatchStatus c f buffer size decodeInfo
              output w)
    as [[_ ->] | [(_ & e & s1 & _ & _ & ->)
                 | (Ha & s1 & e & s2 & frame & s3 & Hi & Hd & Hg & ->)]].
  - done.
  - by case_bool_decide.
  - unfold outcome_after_init. case_bool_decide as He.
    + subst e. destruct frame as [img|], decodeInfo as [di|]; try done.
      case_bool_decide as Hv; [by intros [= ? _] |].
      intros [= Hst <-]. exists img, s3, di.
      split; [split; [done |]; by exists s1, s2 |].
      repeat split; try done.
      destruct (f (Some img) (bitmaps w)) as [st b]. simpl in *. by subst.
    + by case_bool_decide.
Qed.

(** X4. [Ok] is never produced by the core itself.  When either entry
    point returns [Ok], the decode succeeded, the [DecodeInfo] pointer was
    not null, the decoded size passed the dimension check, the conversion
    routine was called and answered [Ok], the caller's bitmaps are what
    that conversion wrote, and the decoder was released after it. *)
Theorem X4_ok_only_after_conversion {AomState : Type}
    (ext : Externals AomState)
    (buffer : option (list byte)) (size : N)
    (colorInfo : option ColorConversionInfo) (decodeInfo : option DecodeInfo)
    (output : option addr) (w : World AomState) :
  (∀ w',
     DecodeColorImage ext buffer size colorInfo decodeInfo output w
       = Val Ok w' →
     ∃ img s3 di,
       decodes_to ext buffer size output w img s3
       ∧ decodeInfo = Some di
       ∧ ¬ validation_fails di img
       ∧ ext_ConvertColorImage ext (Some img) colorInfo decodeInfo output
           (bitmaps w) = (Ok, bitmaps w')
       ∧ calls w' = calls w ++ [call_dec_init; call_decode; call_get_frame;
                                call_ConvertColorImage; call_destroy])
  ∧ (∀ w',
       DecodeAlphaImage ext buffer size decodeInfo output w = Val Ok w' →
       ∃ img s3 di,
         decodes_to ext buffer size output w img s3
         ∧ decodeInfo = Some di
         ∧ ¬ validation_fails di img
         ∧ ext_ConvertAlphaImage ext (Some img) decodeInfo output
             (bitmaps w) = (Ok, bitmaps w')
         ∧ calls w' = calls w ++ [call_dec_init; call_decode; call_get_frame;
                                  call_ConvertAlphaImage; call_destroy]).
Proof.
  split; intros w' H.
  - exact (pipeline_ok ext ColorSizeMismatch call_ConvertColorImage
             (λ img, ext_ConvertColorImage ext img colorInfo decodeInfo output)
             buffer size decodeInfo output w w' ltac:(discriminate) H).
  - exact (pipeline_ok ext AlphaSizeMismatch call_ConvertAlphaImage
             (λ img, ext_ConvertAlphaImage ext img decodeInfo output)
             buffer size decodeInfo output w w' ltac:(discriminate) H).
Qed.

Lemma X4_ok_only_after_conversion_witness :
  let w := Scripted.world Scripted.healthy in
  let r := DecodeColorImage Scripted.externals Scripted.tile 3 None
             (Some (mk_DecodeInfo 0 0)) (Some 16) w in
  r = Val Ok (world_of r)
  ∧ Scripted.convert (Some Scripted.frame_4x2) (Some 16) (bitmaps w)
    = (Ok, bitmaps (world_of r)).
Proof.
  intros w r.
  assert (Hr : r = Val Ok (world_of r)) by (vm_compute; reflexivity).
  split; [exact Hr |].
  destruct (proj1 (X4_ok_only_after_conversion Scripted.externals
                     Scripted.tile 3 None (Some (mk_DecodeInfo 0 0))
                     (Some 16) w) _ Hr)
    as (img & s3 & di & (_ & s1 & s2 & Hi & Hd & Hg) & _ & _ & Hconv & _).
  injection Hi as <-. injection Hd as <-. injection Hg as <- _.
  exact Hconv.
Defined.

(** X5. After a successful decode, an expected height that is not 0 and
    differs from the decoded height makes the colour entry point return
    [ColorSizeMismatch] and the alpha entry point [AlphaSizeMismatch],
    whether the width is unconstrained, matches or differs: the second
    half of the condition is not guarded by the first. *)
Theorem X5_height_mismatch {AomState : Type} (ext : Externals AomState)
    (buffer : option (list byte)) (size : N)
    (colorInfo : option ColorConversionInfo) (expectation : DecodeInfo)
    (output : option addr) (w : World AomState)
    (img : aom_image_t) (s3 : AomState) :
  decodes_to ext buffer size output w img s3 →
  expectedHeight expectation ≠ 0 →
  d_h img ≠ expectedHeight expectation →
  (∃ w', DecodeColorImage ext buffer size colorInfo (Some expectation)
           output w = Val ColorSizeMismatch w')
  ∧ (∃ w', DecodeAlphaImage ext buffer size (Some expectation) output w
           = Val AlphaSizeMismatch w').
Proof.
  intros Hdec Hh Hne.
  destruct (decodes_to_outcomes ext buffer size colorInfo (Some expectation)
              output w img s3 Hdec) as [-> ->].
  unfold outcome_after_init. simpl.
  rewrite bool_decide_eq_true_2; [| by right].
  split; by eexists.
Qed.

Lemma X5_height_mismatch_witness :
  (∃ w', DecodeColorImage Scripted.externals Scripted.tile 3 None
           (Some (mk_DecodeInfo 0 3)) (Some 16)
           (Scripted.world Scripted.healthy) = Val ColorSizeMismatch w')
  ∧ (∃ w', DecodeAlphaImage Scripted.externals Scripted.tile 3
             (Some (mk_DecodeInfo 0 3)) (Some 16)
             (Scripted.world Scripted.healthy) = Val AlphaSizeMismatch w').
Proof.
  apply (X5_height_mismatch Scripted.externals Scripted.tile 3 None
           (mk_DecodeInfo 0 3) (Some 16) (Scripted.world Scripted.healthy)
           Scripted.frame_4x2
           (Scripted.mk_Script AOM_CODEC_OK AOM_CODEC_OK None 1)).
  - apply (scripted_decodes_to Scripted.healthy); try reflexivity.
    repeat split; discriminate.
  - discriminate.
  - discriminate.
Defined.

Lemma outcome_converts_iff {AomState : Type} (ext : Externals AomState)
    mismatchStatus c f di (w : World AomState) s2 img s3 l :
  c ≠ call_dec_init → c ≠ call_decode → c ≠ call_get_frame →
  c ≠ call_destroy →
  calls (world_of (outcome_after_init ext mismatchStatus c f (Some di) w
                     AOM_CODEC_OK s2 (Some img) s3)) = calls w ++ l →
  c ∈ l ↔ ¬ validation_fails di img.
Proof.
  intros H1 H2 H3 H4. unfold outcome_after_init. simpl.
  case_bool_decide as Hv; simpl; intros Hl%(inj (app (calls w))); subst l.
  - split; [| done]. rewrite !elem_of_cons, elem_of_nil.
    intros [? | [? | [? | [? | []]]]]; congruence.
  - split; [done |]. intros _. in_list.
Qed.

(** X6. After a successful decode with a [DecodeInfo], the conversion
    routine of the entry point is called exactly when the decoded size
    passes the dimension check: each dimension is unconstrained (0) or
    equal to the decoded one.  So the first tile of a grid, with
    expectation 0 by 0, is always converted, and a failed check never
    reaches the conversion. *)
Theorem X6_conversion_iff_validation_passes {AomState : Type}
    (ext : Externals AomState)
    (buffer : option (list byte)) (size : N)
    (colorInfo : option ColorConversionInfo) (expectation : DecodeInfo)
    (output : option addr) (w : World AomState)
    (img : aom_image_t) (s3 : AomState) (lc la : list Call) :
  decodes_to ext buffer size output w img s3 →
  calls (world_of (DecodeColorImage ext buffer size colorInfo
                     (Some expectation) output w)) = calls w ++ lc →
  calls (world_of (DecodeAlphaImage ext buffer size (Some expectation)
                     output w)) = calls w ++ la →
  (call_ConvertColorImage ∈ lc
   ↔ (expectedWidth expectation = 0 ∨ d_w img = expectedWidth expectation)
     ∧ (expectedHeight expectation = 0
        ∨ d_h img = expectedHeight expectation))
  ∧ (call_ConvertAlphaImage ∈ la
     ↔ (expectedWidth expectation = 0 ∨ d_w img = expectedWidth expectation)
       ∧ (expectedHeight expectation = 0
          ∨ d_h img = expectedHeight expectation)).
Proof.
  intros Hdec.
  destruct (decodes_to_outcomes ext buffer size colorInfo (Some expectation)
              output w img s3 Hdec) as [-> ->].
  intros Hc Ha.
  assert (Hpass : ¬ validation_fails expectation img
                  ↔ (expectedWidth expectation = 0
                     ∨ d_w img = expectedWidth expectation)
                    ∧ (expectedHeight expectation = 0
                       ∨ d_h img = expectedHeight expectation)).
  { unfold validation_fails.
    destruct (decide (expectedWidth expectation = 0)),
             (decide (d_w img = expectedWidth expectation)),
             (decide (expectedHeight expectation = 0)),
             (decide (d_h img = expectedHeight expectation)); tauto. }
  rewrite <- Hpass. split.
  - by apply (outcome_converts_iff ext ColorSizeMismatch
                call_ConvertColorImage
                (λ img, ext_ConvertColorImage ext img colorInfo
                          (Some expectation) output)
                expectation w s3 img s3 lc).
  - by apply (outcome_converts_iff ext AlphaSizeMismatch
                call_ConvertAlphaImage
                (λ img, ext_ConvertAlphaImage ext img (Some expectation)
                          output)
                expectation w s3 img s3 la).
Qed.

Lemma X6_conversion_iff_validation_passes_witness :
  let w := Scripted.world Scripted.healthy in
  (call_ConvertColorImage ∈ [call_dec_init; call_decode; call_get_frame;
                             call_ConvertColorImage; call_destroy])
  ∧ (call_ConvertAlphaImage ∉ [call_dec_init; call_decode; call_get_frame;
                               call_destroy]).
Proof.
  intros w. split.
  - apply (proj1 (X6_conversion_iff_validation_passes Scripted.externals
                    Scripted.tile 3 None (mk_DecodeInfo 0 0) (Some 16) w
                    Scripted.frame_4x2
                    (Scripted.mk_Script AOM_CODEC_OK AOM_CODEC_OK None 1)
                    [call_dec_init; call_decode; call_get_frame;
                     call_ConvertColorImage; call_destroy]
                    [call_dec_init; call_decode; call_get_frame;
                     call_ConvertAlphaImage; call_destroy]
                    (scripted_decodes_to Scripted.healthy Scripted.tile 3
                       (Some 16)
                       (conj eq_refl (conj (N.neq_succ_0 2) eq_refl))
                       eq_refl eq_refl eq_refl)
                    eq_refl eq_refl)).
    split; by left.
  - intros Hin.
    apply (proj2 (X6_conversion_iff_validation_passes Scripted.externals
                    Scripted.tile 3 None (mk_DecodeInfo 5 0) (Some 16) w
                    Scripted.frame_4x2
                    (Scripted.mk_Script AOM_CODEC_OK AOM_CODEC_OK None 1)
                    [call_dec_init; call_decode; call_get_frame; call_destroy]
                    [call_dec_init; call_decode; call_get_frame; call_destroy]
                    (scripted_decodes_to Scripted.healthy Scripted.tile 3
                       (Some 16)
                       (conj eq_refl (conj (N.neq_succ_0 2) eq_refl))
                       eq_refl eq_refl eq_refl)
                    eq_refl eq_refl)) in Hin.
    destruct Hin as [[H | H] _]; discriminate H.
Defined.

(** X7. When the decoder initialises and the decode call then fails,
    either entry point returns [OutOfMemory] for an allocation error and
    [DecodeFailed] for any other error.  The output queue is not read, no
    conversion is called, the decoder is released, and neither the
    [DecodeInfo] pointer nor the [ColorConversionInfo] pointer is looked
    at: the outcome is the same for every value of them, null included. *)
Theorem X7_decode_error {AomState : Type} (ext : Externals AomState)
    (buffer : option (list byte)) (size : N)
    (colorInfo : option ColorConversionInfo) (decodeInfo : option DecodeInfo)
    (output : option addr) (w : World AomState)
    (s1 : AomState) (e : aom_codec_err_t) (s2 : AomState) :
  checked_args_ok buffer size output →
  ext_dec_init ext av1_dx_iface (aom w) = (AOM_CODEC_OK, s1) →
  ext_decode ext buffer size s1 = (e, s2) →
  e ≠ AOM_CODEC_OK →
  ∃ status,
    (e = AOM_CODEC_MEM_ERROR → status = OutOfMemory)
    ∧ (e ≠ AOM_CODEC_MEM_ERROR → status = DecodeFailed)
    ∧ DecodeColorImage ext buffer size colorInfo decodeInfo output w
      = Val status
          (mk_World (ext_destroy ext s2).2 (bitmaps w)
             (calls w ++ [call_dec_init; call_decode; call_destroy]))
    ∧ DecodeAlphaImage ext buffer size decodeInfo output w
      = Val status
          (mk_World (ext_destroy ext s2).2 (bitmaps w)
             (calls w ++ [call_dec_init; call_decode; call_destroy])).
Proof.
  intros Ha Hi Hd He.
  destruct (ext_get_frame ext s2) as [frame s3] eqn:Hg.
  exists (if bool_decide (e = AOM_CODEC_MEM_ERROR)
          then OutOfMemory else DecodeFailed).
  rewrite (DecodeColorImage_outcome ext _ _ colorInfo _ _ w s1 _ s2 _ s3
             Ha Hi Hd Hg).
  rewrite (DecodeAlphaImage_outcome ext _ _ _ _ w s1 _ s2 _ s3 Ha Hi Hd Hg).
  unfold outcome_after_init. rewrite (bool_decide_eq_false_2 _ He).
  repeat split.
  - intros ->. reflexivity.
  - intros Hm. by rewrite (bool_decide_eq_false_2 _ Hm).
Qed.

Lemma X7_decode_error_witness :
  let oom := Scripted.world
               (Scripted.mk_Script AOM_CODEC_OK AOM_CODEC_MEM_ERROR None 0) in
  let bad := Scripted.world
               (Scripted.mk_Script AOM_CODEC_OK AOM_CODEC_UNSUP_BITSTREAM
                  None 0) in
  (∃ w', DecodeColorImage Scripted.externals Scripted.tile 3 None None
           (Some 16) oom = Val OutOfMemory w')
  ∧ (∃ w', DecodeAlphaImage Scripted.externals Scripted.tile 3 None
             (Some 16) bad = Val DecodeFailed w').
Proof.
  intros oom bad. split.
  - destruct (X7_decode_error Scripted.externals Scripted.tile 3 None None
                (Some 16) oom
                (Scripted.mk_Script AOM_CODEC_OK AOM_CODEC_MEM_ERROR None 1)
                AOM_CODEC_MEM_ERROR
                (Scripted.mk_Script AOM_CODEC_OK AOM_CODEC_MEM_ERROR None 1))
      as (status & Hmem & _ & Hc & _);
      [repeat split; discriminate | reflexivity | reflexivity
      | discriminate |].
    rewrite (Hmem eq_refl) in Hc. by eexists.
  - destruct (X7_decode_error Scripted.externals Scripted.tile 3 None None
                (Some 16) bad
                (Scripted.mk_Script AOM_CODEC_OK AOM_CODEC_UNSUP_BITSTREAM
                   None 1)
                AOM_CODEC_UNSUP_BITSTREAM
                (Scripted.mk_Script AOM_CODEC_OK AOM_CODEC_UNSUP_BITSTREAM
                   None 1))
      as (status & _ & Hother & _ & Hal);
      [repeat split; discriminate | reflexivity | reflexivity
      | discriminate |].
    rewrite (Hother ltac:(discriminate)) in Hal. by eexists.
Defined.

(** X8. When the decoder initialises and the decode call succeeds but the
    output queue has no frame, either entry point returns [DecodeFailed]:
    the dimension check and the conversion are skipped, so a null
    [DecodeInfo] does no harm, the caller's bitmaps are as they were, and
    the decoder is released. *)
Theorem X8_no_frame {AomState : Type} (ext : Externals AomState)
    (buffer : option (list byte)) (size : N)
    (colorInfo : option ColorConversionInfo) (decodeInfo : option DecodeInfo)
    (output : option addr) (w : World AomState) (s1 s2 s3 : AomState) :
  checked_args_ok buffer size output →
  ext_dec_init ext av1_dx_iface (aom w) = (AOM_CODEC_OK, s1) →
  ext_decode ext buffer size s1 = (AOM_CODEC_OK, s2) →
  ext_get_frame ext s2 = (None, s3) →
  DecodeColorImage ext buffer size colorInfo decodeInfo output w
    = Val DecodeFailed
        (mk_World (ext_destroy ext s3).2 (bitmaps w)
           (calls w ++ [call_dec_init; call_decode; call_get_frame;
                        call_destroy]))
  ∧ DecodeAlphaImage ext buffer size decodeInfo output w
    = Val DecodeFailed
        (mk_World (ext_destroy ext s3).2 (bitmaps w)
           (calls w ++ [call_dec_init; call_decode; call_get_frame;
                        call_destroy])).
Proof.
  intros Ha Hi Hd Hg.
  rewrite (DecodeColorImage_outcome ext _ _ colorInfo _ _ w s1 _ s2 _ s3
             Ha Hi Hd Hg).
  by rewrite (DecodeAlphaImage_outcome ext _ _ _ _ w s1 _ s2 _ s3
                Ha Hi Hd Hg).
Qed.

Lemma X8_no_frame_witness :
  let w := Scripted.world
             (Scripted.mk_Script AOM_CODEC_OK AOM_CODEC_OK None 0) in
  (∃ w', DecodeColorImage Scripted.externals Scripted.tile 3 None None
           (Some 16) w = Val DecodeFailed w')
  ∧ (∃ w', DecodeAlphaImage Scripted.externals Scripted.tile 3 None
             (Some 16) w = Val DecodeFailed w').
Proof.
  intros w.
  destruct (X8_no_frame Scripted.externals Scripted.tile 3 None None
              (Some 16) w
              (Scripted.mk_Script AOM_CODEC_OK AOM_CODEC_OK None 1)
              (Scripted.mk_Script AOM_CODEC_OK AOM_CODEC_OK None 1)
              (Scripted.mk_Script AOM_CODEC_OK AOM_CODEC_OK None 1))
    as [Hc Hal];
    [repeat split; discriminate | reflexivity | reflexivity | reflexivity |].
  split; by eexists.
Defined.

Lemma pipeline_core_status {AomState : Type} (ext : Externals AomState)
    mismatchStatus c f buffer size decodeInfo output
    (w w' : World AomState) status l :
  DecodeImageWith ext mismatchStatus (λ aomImage, on_bitmaps c (f aomImage))
    buffer size decodeInfo output w = Val status w' →
  calls w' = calls w ++ l →
  c ∉ l →
  status ∈ core_statuses mismatchStatus.
Proof.
  destruct (pipeline_cases ext mismatchStatus c f buffer size decodeInfo
              output w)
    as [[_ ->] | [(_ & e & s1 & _ & _ & ->)
                 | (_ & s1 & e & s2 & frame & s3 & _ & _ & _ & ->)]].
  - intros [= <- _] _ _. in_list.
  - intros [= <- _] _ _. case_bool_decide; in_list.
  - unfold outcome_after_init.
    case_bool_decide;
      [destruct frame as [img|], decodeInfo as [di|];
       [case_bool_decide | | |] |];
      try done; intros [= <- <-]; simpl.
    + intros _ _. in_list.
    + intros Hl%(inj (app (calls w))) Hc. subst l.
      exfalso. apply Hc. in_list.
    + intros _ _. in_list.
    + intros _ _. in_list.
    + intros _ _. case_bool_decide; in_list.
Qed.

(** X9. The statuses the core produces by itself are few.  A run of the
    colour entry point that returns without having called
    [ConvertColorImage] returns [NullParameter], [OutOfMemory],
    [DecodeFailed] or [ColorSizeMismatch]; a run of the alpha entry point
    that returns without having called [ConvertAlphaImage] returns
    [NullParameter], [OutOfMemory], [DecodeFailed] or [AlphaSizeMismatch].
    Any other status, the mismatch status of the other path included,
    comes from the conversion routine. *)
Theorem X9_core_statuses {AomState : Type} (ext : Externals AomState)
    (buffer : option (list byte)) (size : N)
    (colorInfo : option ColorConversionInfo) (decodeInfo : option DecodeInfo)
    (output : option addr) (w : World AomState) :
  (∀ status w' l,
     DecodeColorImage ext buffer size colorInfo decodeInfo output w
       = Val status w' →
     calls w' = calls w ++ l →
     call_ConvertColorImage ∉ l →
     status ∈ core_statuses ColorSizeMismatch)
  ∧ (∀ status w' l,
       DecodeAlphaImage ext buffer size decodeInfo output w
         = Val status w' →
       calls w' = calls w ++ l →
       call_ConvertAlphaImage ∉ l →
       status ∈ core_statuses AlphaSizeMismatch).
Proof.
  split; intros status w' l.
  - exact (pipeline_core_status ext ColorSizeMismatch call_ConvertColorImage
             (λ img, ext_ConvertColorImage ext img colorInfo decodeInfo output)
             buffer size decodeInfo output w w' status l).
  - exact (pipeline_core_status ext AlphaSizeMismatch call_ConvertAlphaImage
             (λ img, ext_ConvertAlphaImage ext img decodeInfo output)
             buffer size decodeInfo output w w' status l).
Qed.

Lemma X9_core_statuses_witness :
  let w := Scripted.world Scripted.healthy in
  ColorSizeMismatch ∈ core_statuses ColorSizeMismatch.
Proof.
  intros w.
  refine (proj1 (X9_core_statuses Scripted.externals Scripted.tile 3 None
                   (Some (mk_DecodeInfo 4 7)) (Some 16) w)
            ColorSizeMismatch
            (mk_World (Scripted.mk_Script AOM_CODEC_OK AOM_CODEC_OK None 0)
               (bitmaps w)
               [call_dec_init; call_decode; call_get_frame; call_destroy])
            [call_dec_init; call_decode; call_get_frame; call_destroy]
            _ eq_refl _).
  - vm_compute. reflexivity.
  - not_in_calls.
Defined.
